(** * Bootstrap utilities: configuration flattening and logging setup

    A shallow embedding of
      - [src/python/setup.py]          (module [Setup], and module [Strict]
                                        for the paths on which it raises),
      - [src/python/logger_config.py]  (module [LoggerConfig]),
      - [src/logger_config.py]         (module [RootLoggerConfig]),
    followed by the properties of the configuration loader and of the
    logging setup.

    Modelling conventions.
      - [os.environ] is a finite map from names to values
        ([gmap string string]); [os.environ[k] = v] is insertion,
        [os.environ.get(k)] is lookup.  Names that the operating system
        refuses (the empty name, a name with [=] in it) are not told apart
        from the others.
      - A Python [dict] is the list of its items in insertion order, which is
        the order in which [dict.items()] yields them; a real dict has
        pairwise distinct keys ([Py.dict_ok]).  Mapping keys are strings, as
        [key.upper()] requires.
      - Strings are ASCII; [upper] is [str.upper] on that range.
      - Mutable objects (the environment, a logger) are threaded as explicit
        state.
      - The file system maps the paths that exist to a directory or to a
        file with its content ([Os.node]); [os.path.join] is that of
        [posixpath]; a function that raises returns [None]. *)

From stdpp Require Import base option list strings pretty gmap fin_maps.
From Stdlib Require Import Ascii String ZArith Lia.

Open Scope string_scope.
Open Scope list_scope.

(** ** Python values and builtins *)

Module Py.

(** Scalars that [yaml.safe_load] can produce.  [PyOther repr] stands for an
    object of any other type (float, date, ...), given by what [str] returns
    on it. *)
Inductive scalar : Type :=
| PyNone
| PyBool (b : bool)
| PyInt (z : Z)
| PyStr (s : string)
| PyOther (repr : string).

(** The configuration tree: what is neither a [dict] nor a [list] is a
    scalar. *)
#[local] Unset Elimination Schemes.
Inductive tree : Type :=
| Scalar (v : scalar)
| List (items : list tree)
| Dict (items : list (string * tree)).
#[local] Set Elimination Schemes.

(** Induction over trees, with the hypothesis for every item of a list and
    for every value of a dict. *)
Section tree_induction.
Variable P : tree → Prop.
Hypothesis case_Scalar : ∀ v, P (Scalar v).
Hypothesis case_List : ∀ items, Forall P items → P (List items).
Hypothesis case_Dict :
  ∀ items, Forall (λ kv : string * tree, P kv.2) items → P (Dict items).

Fixpoint tree_ind (data : tree) : P data :=
  match data with
  | Scalar v => case_Scalar v
  | List items =>
      case_List items
        ((fix all (items : list tree) : Forall P items :=
            match items with
            | [] => @List.Forall_nil _ _
            | value :: rest =>
                @List.Forall_cons _ P value rest (tree_ind value) (all rest)
            end) items)
  | Dict items =>
      case_Dict items
        ((fix all (items : list (string * tree))
            : Forall (λ kv : string * tree, P kv.2) items :=
            match items with
            | [] => @List.Forall_nil _ _
            | (key, value) :: rest =>
                @List.Forall_cons _ (λ kv : string * tree, P kv.2)
                  (key, value) rest (tree_ind value) (all rest)
            end) items)
  end.
End tree_induction.



(** [str(data)] on a scalar. *)
Definition str (v : scalar) : string :=
  match v with
  | PyNone => "None"
  | PyBool true => "True"
  | PyBool false => "False"
  | PyInt z => pretty z
  | PyStr s => s
  | PyOther repr => repr
  end.

(** [str.upper] on ASCII letters. *)
Definition upper_char (c : ascii) : ascii :=
  let n := nat_of_ascii c in
  if (97 <=? n)%nat && (n <=? 122)%nat then ascii_of_nat (n - 32) else c.

Fixpoint upper (s : string) : string :=
  match s with
  | EmptyString => EmptyString
  | String c rest => String (upper_char c) (upper rest)
  end.

(** Truth value of a string: the empty string is falsy. *)
Definition truthy (s : string) : bool :=
  match s with
  | EmptyString => false
  | String _ _ => true
  end.


(** A step from a node of the tree to a child: by key in a mapping, by
    position in a sequence. *)
Inductive step : Type :=
| Key (key : string)
| Index (index : nat).

(** The scalar leaves of a tree in traversal order, each with the path from
    the root that leads to it. *)
Fixpoint leaf_paths (data : tree) {struct data} : list (list step * scalar) :=
  match data with
  | Dict items =>
      (fix for_items (items : list (string * tree)) {struct items} :=
         match items with
         | [] => []
         | (key, value) :: rest =>
             ((λ pv : list step * scalar, (Key key :: pv.1, pv.2))
                <$> leaf_paths value)
             ++ for_items rest
         end) items
  | List items =>
      (fix for_enumerate (items : list tree) (index : nat) {struct items} :=
         match items with
         | [] => []
         | value :: rest =>
             ((λ pv : list step * scalar, (Index index :: pv.1, pv.2))
                <$> leaf_paths value)
             ++ for_enumerate rest (S index)
         end) items 0%nat
  | Scalar v => [([], v)]
  end.

(** Keys of a real dict are pairwise distinct; so are the dicts below it. *)
Fixpoint dict_ok (data : tree) : Prop :=
  match data with
  | Scalar _ => True
  | List items =>
      (fix all (items : list tree) : Prop :=
         match items with
         | [] => True
         | value :: rest => dict_ok value ∧ all rest
         end) items
  | Dict items =>
      NoDup (items.*1) ∧
      (fix all (items : list (string * tree)) : Prop :=
         match items with
         | [] => True
         | (_, value) :: rest => dict_ok value ∧ all rest
         end) items
  end.

(** The line feed ['\n']. *)
Definition LF : string := String (ascii_of_nat 10) "".

(** ASCII lower-case letters, the characters [str.upper] changes. *)
Definition is_lower (c : ascii) : bool :=
  let n := nat_of_ascii c in (97 <=? n)%nat && (n <=? 122)%nat.

Fixpoint no_lower (s : string) : bool :=
  match s with
  | EmptyString => true
  | String c rest => negb (is_lower c) && no_lower rest
  end.

End Py.

(** ** The parts of Python's [logging] module that the code calls *)

Module Logging.
Import Py.

Definition CRITICAL : nat := 50.
Definition ERROR : nat := 40.
Definition WARNING : nat := 30.
Definition INFO : nat := 20.
Definition DEBUG : nat := 10.
Definition NOTSET : nat := 0.

(** [logging._nameToLevel]. *)
Definition _nameToLevel : list (string * nat) :=
  [("CRITICAL", CRITICAL); ("FATAL", CRITICAL); ("ERROR", ERROR);
   ("WARN", WARNING); ("WARNING", WARNING); ("INFO", INFO);
   ("DEBUG", DEBUG); ("NOTSET", NOTSET)].

(** Lookup in a dict literal, written as the list of its items. *)
Fixpoint dict_get {V : Type} (d : list (string * V)) (k : string) : option V :=
  match d with
  | [] => None
  | (k', v) :: rest => if decide (k' = k) then Some v else dict_get rest k
  end.
Arguments dict_get : simpl never.

(** A level handed to [setLevel]: a number or a name. *)
Inductive level_arg : Type :=
| LevelNo (n : nat)
| LevelName (s : string).

Inductive exception : Type :=
| ValueError.

(** [logging._checkLevel]: a number is taken as it is, a name must be in
    [_nameToLevel], otherwise [ValueError] is raised. *)
Definition _checkLevel (level : level_arg) : exception + nat :=
  match level with
  | LevelNo n => inr n
  | LevelName s =>
      match dict_get _nameToLevel s with
      | Some n => inr n
      | None => inl ValueError
      end
  end.

(** A logger object: its level and the calls of [info], [warning] and
    [error] made on it, oldest first, each with its level name. *)
Record Logger : Type := mkLogger {
  level : nat;
  calls : list (string * string)
}.

Definition setLevel (lvl : level_arg) (logger : Logger)
    : exception + Logger :=
  match _checkLevel lvl with
  | inl e => inl e
  | inr n => inr {| level := n; calls := calls logger |}
  end.

Definition log (levelname msg : string) (logger : Logger) : Logger :=
  {| level := level logger; calls := calls logger ++ [(levelname, msg)] |}.

Definition info : string → Logger → Logger := log "INFO".
Definition warning : string → Logger → Logger := log "WARNING".
Definition error : string → Logger → Logger := log "ERROR".

(** The loggers of the process: the root logger and the named ones.  A named
    logger that was never asked for is created at level [NOTSET] when
    [getLogger] first returns it. *)
Record manager : Type := mkManager {
  root : Logger;
  loggerDict : gmap string Logger
}.

(** A reference to a logger, as [logging.getLogger(name)] returns it. *)
Inductive logger_ref : Type :=
| RootLogger
| NamedLogger (name : string).

(** [logging.getLogger(name)]: no name, or the name of the root logger,
    gives the root logger. *)
Definition getLogger (name : option string) : logger_ref :=
  match name with
  | None => RootLogger
  | Some n =>
      if truthy n && negb (bool_decide (n = "root")) then NamedLogger n
      else RootLogger
  end.

Definition deref (r : logger_ref) (m : manager) : Logger :=
  match r with
  | RootLogger => root m
  | NamedLogger n =>
      default {| level := NOTSET; calls := [] |} (loggerDict m !! n)
  end.

(** [r.setLevel(lvl)] on the logger a reference points to. *)
Definition setLevel_ref (r : logger_ref) (lvl : level_arg) (m : manager)
    : exception + manager :=
  match setLevel lvl (deref r m) with
  | inl e => inl e
  | inr l =>
      match r with
      | RootLogger => inr {| root := l; loggerDict := loggerDict m |}
      | NamedLogger n =>
          inr {| root := root m; loggerDict := <[n := l]> (loggerDict m) |}
      end
  end.

(** A log record, with the attributes the format strings use. *)
Record LogRecord : Type := mkLogRecord {
  name : string;
  levelno : nat;
  levelname : string;
  asctime : string;
  module : string;
  funcName : string;
  message : string
}.

(** A [%]-style format string, cut into its literal pieces and its
    [%(attr)s] fields. *)
Inductive piece : Type :=
| Lit (s : string)
| Attr (get : LogRecord → string).

(** [logging.Formatter.format] for such a format string. *)
Fixpoint Formatter_format (fmt : list piece) (record : LogRecord) : string :=
  match fmt with
  | [] => ""
  | Lit s :: rest => s +:+ Formatter_format rest record
  | Attr get :: rest => get record +:+ Formatter_format rest record
  end.

(** The dictionary handed to [logging.config.dictConfig]: the classes the
    repository's modules name under ['()'], and the entries of its
    sub-dictionaries. *)
Inductive formatter_class : Type :=
| ColoredFormatter
| Formatter.

Inductive filter_class : Type :=
| LoggingFilter.

Record formatter_entry : Type := mkFormatterEntry {
  factory : option formatter_class;
  format : list piece
}.

Record handler_entry : Type := mkHandlerEntry {
  h_level : string;
  h_formatter : string;
  h_class : string;
  h_filename : option string;
  h_mode : option string;
  h_filters : list string
}.

Record logger_entry : Type := mkLoggerEntry {
  l_handlers : list string;
  l_level : string;
  l_propagate : bool
}.

Record dict_config : Type := mkDictConfig {
  version : nat;
  disable_existing_loggers : bool;
  filters : list (string * filter_class);
  formatters : list (string * formatter_entry);
  handlers : list (string * handler_entry);
  loggers : list (string * logger_entry)
}.

(** The class [dictConfig] instantiates for a formatter entry: the one under
    ['()'], or [logging.Formatter] when there is none. *)
Definition formatter_class_of (e : formatter_entry) : formatter_class :=
  default Formatter (factory e).

(** The formatter entry a handler of the configuration refers to. *)
Definition handler_formatter (cfg : dict_config) (handler : string)
    : option formatter_entry :=
  match dict_get (handlers cfg) handler with
  | Some h => dict_get (formatters cfg) (h_formatter h)
  | None => None
  end.

(** The filters a handler of the configuration refers to; [None] when a name
    is not configured. *)
Definition handler_filters (cfg : dict_config) (handler : string)
    : option (list filter_class) :=
  match dict_get (handlers cfg) handler with
  | Some h => mapM (dict_get (filters cfg)) (h_filters h)
  | None => None
  end.

(** A handler as [dictConfig] builds it from its entry. *)
Record handler : Type := mkHandler {
  hd_level : nat;
  hd_filters : list filter_class;
  hd_formatter : formatter_entry
}.

(** [None] when [dictConfig] raises: unknown handler, level, filter or
    formatter. *)
Definition configure_handler (cfg : dict_config) (h : string)
    : option handler :=
  match dict_get (handlers cfg) h with
  | None => None
  | Some e =>
      match _checkLevel (LevelName (h_level e)),
            handler_filters cfg h, handler_formatter cfg h with
      | inr lvl, Some fs, Some f =>
          Some {| hd_level := lvl; hd_filters := fs; hd_formatter := f |}
      | _, _, _ => None
      end
  end.

(** What a handler writes for a record handed to it by a logger: nothing
    below the handler's level or when one of its filters rejects the record,
    else the line its formatter makes.  [filter_of] and [format_of] give the
    code of the configured classes. *)
Definition Handler_handle (filter_of : filter_class → LogRecord → bool)
    (format_of : formatter_entry → LogRecord → string)
    (h : handler) (record : LogRecord) : option string :=
  if (hd_level h <=? levelno record)%nat
     && forallb (λ f, filter_of f record) (hd_filters h)
  then Some (format_of (hd_formatter h) record)
  else None.

(** [logging.error(msg)], the module-level function: a call of [error] on
    the root logger. *)
Definition root_error (msg : string) (m : manager) : manager :=
  {| root := error msg (root m); loggerDict := loggerDict m |}.

(** Storing a logger object back under its name. *)
Definition set_logger (n : string) (l : Logger) (m : manager) : manager :=
  {| root := root m; loggerDict := <[n := l]> (loggerDict m) |}.

End Logging.

(** ** The parts of the file system and of [os.path] that the code uses *)

Module Os.
Import Py.

(** What a path leads to.  A file system maps the paths that exist to their
    nodes; it does not track which directory a path lies in. *)
Inductive node : Type :=
| Dir
| File (content : string).

(** [os.path.exists(path)]. *)
Definition path_exists (path : string) (fs : gmap string node) : bool :=
  bool_decide (is_Some (fs !! path)).

(** [os.makedirs(path)], called for a path that does not exist. *)
Definition makedirs (path : string) (fs : gmap string node)
    : gmap string node :=
  <[path := Dir]> fs.

(** [with open(path, 'a') as f: f.write(text)]: the text goes to the end of
    the file, which is created when it is missing; [None] when [open]
    raises, the path being a directory. *)
Definition append_text (path text : string) (fs : gmap string node)
    : option (gmap string node) :=
  match fs !! path with
  | Some Dir => None
  | Some (File content) => Some (<[path := File (content +:+ text)]> fs)
  | None => Some (<[path := File text]> fs)
  end.

(** [logging.FileHandler(path, mode='a')] opens the file when it is built:
    a missing file is created empty, an existing one is left as it is. *)
Definition FileHandler_open (path : string) (fs : gmap string node)
    : option (gmap string node) :=
  match fs !! path with
  | Some Dir => None
  | Some (File content) => Some fs
  | None => Some (<[path := File ""]> fs)
  end.

(** The content of the regular files. *)
Definition regular_files (fs : gmap string node) : gmap string string :=
  omap (λ n, match n with File content => Some content | Dir => None end) fs.

Definition starts_with_sep (s : string) : bool :=
  match s with
  | String c _ => bool_decide (c = "/"%char)
  | EmptyString => false
  end.

Fixpoint ends_with_sep (s : string) : bool :=
  match s with
  | EmptyString => false
  | String c EmptyString => bool_decide (c = "/"%char)
  | String _ rest => ends_with_sep rest
  end.

(** [os.path.join(a, b)] of [posixpath]. *)
Definition path_join (a b : string) : string :=
  if starts_with_sep b then b
  else if negb (truthy a) || ends_with_sep a then a +:+ b
  else a +:+ "/" +:+ b.

(** The steps the three functions that prepare the log directory share: the
    directory is made when it is missing; else the banner is appended to the
    log file when that exists. *)
Definition prepare_log (dir file banner : string) (fs : gmap string node)
    : option (gmap string node) :=
  if negb (path_exists dir fs) then Some (makedirs dir fs)
  else if path_exists file fs then append_text file banner fs
  else Some fs.

(** The effects of [logging.config.dictConfig(cfg)] that the model tracks:
    every handler is built, a handler with a file name opening its file for
    appending, and gets its level; the root logger gets the level of the
    entry [''] of [loggers].  [None] when [dictConfig] raises. *)
Fixpoint build_handlers (cfg : Logging.dict_config)
    (hs : list (string * Logging.handler_entry)) (fs : gmap string node)
    : option (gmap string node) :=
  match hs with
  | [] => Some fs
  | (h, e) :: rest =>
      match match Logging.h_filename e with
            | Some path => FileHandler_open path fs
            | None => Some fs
            end with
      | None => None
      | Some fs' =>
          match Logging.configure_handler cfg h with
          | None => None
          | Some _ => build_handlers cfg rest fs'
          end
      end
  end.

Definition dictConfig (cfg : Logging.dict_config) (fs : gmap string node)
    (m : Logging.manager) : option (gmap string node * Logging.manager) :=
  match build_handlers cfg (Logging.handlers cfg) fs with
  | None => None
  | Some fs' =>
      match Logging.dict_get (Logging.loggers cfg) "" with
      | None => Some (fs', m)
      | Some e =>
          match Logging.setLevel (Logging.LevelName (Logging.l_level e))
                  (Logging.root m) with
          | inl _ => None
          | inr l =>
              Some (fs', {| Logging.root := l;
                            Logging.loggerDict := Logging.loggerDict m |})
          end
      end
  end.

End Os.

(** ** src/python/setup.py *)

Module Setup.
Import Py.

(** The prefix handed to the recursive call: [f"{prefix}_{part}" if prefix
    else part]. *)
Definition new_prefix (prefix part : string) : string :=
  if truthy prefix then prefix +:+ "_" +:+ part else part.

(** [set_env_vars(data, prefix)], with [os.environ] threaded through. *)
Fixpoint set_env_vars (data : tree) (prefix : string)
    (environ : gmap string string) {struct data} : gmap string string :=
  match data with
  | Dict items =>
      (fix for_items (items : list (string * tree))
           (environ : gmap string string) {struct items} :=
         match items with
         | [] => environ
         | (key, value) :: rest =>
             for_items rest
               (set_env_vars value (new_prefix prefix (upper key)) environ)
         end) items environ
  | List items =>
      (fix for_enumerate (items : list tree) (index : nat)
           (environ : gmap string string) {struct items} :=
         match items with
         | [] => environ
         | value :: rest =>
             for_enumerate rest (S index)
               (set_env_vars value (new_prefix prefix (pretty index)) environ)
         end) items 0%nat environ
  | Scalar v => <[prefix := str v]> environ
  end.

(** The scalar leaves of [data] in traversal order, each with the name
    [set_env_vars] derives for it and its stringified value. *)
Fixpoint leaves (data : tree) (prefix : string) {struct data}
    : list (string * string) :=
  match data with
  | Dict items =>
      (fix for_items (items : list (string * tree)) {struct items} :=
         match items with
         | [] => []
         | (key, value) :: rest =>
             (leaves value (new_prefix prefix (upper key))
                ++ for_items rest)%list
         end) items
  | List items =>
      (fix for_enumerate (items : list tree) (index : nat) {struct items} :=
         match items with
         | [] => []
         | value :: rest =>
             (leaves value (new_prefix prefix (pretty index))
                ++ for_enumerate rest (S index))%list
         end) items 0%nat
  | Scalar v => [(prefix, str v)]
  end.

(** What a step adds to the name: [key.upper()], or the index. *)
Definition step_part (s : step) : string :=
  match s with
  | Key key => upper key
  | Index index => pretty index
  end.

(** The prefix [set_env_vars] has built, from [prefix], when it has gone
    down a path. *)
Definition derive (prefix : string) (path : list step) : string :=
  foldl (λ prefix s, new_prefix prefix (step_part s)) prefix path.

(** The name derived for the leaf at the end of a path from the root. *)
Definition derived_key (path : list step) : string := derive "" path.

(** The names derived for the leaves of [data]. *)
Definition flat_keys (data : tree) (prefix : string) : list string :=
  (leaves data prefix).*1.

(** Storing a list of name/value pairs one after the other. *)
Definition store_all (kvs : list (string * string))
    (environ : gmap string string) : gmap string string :=
  foldl (λ env kv, <[kv.1 := kv.2]> env) environ kvs.

(** The flattening rule in the words of the specification: a mapping appends
    ["_" + upper(key)] to the running prefix, a sequence appends
    ["_" + index], a scalar yields [prefix -> stringified(value)]. *)
Fixpoint spec_flatten (data : tree) (prefix : string) {struct data}
    : list (string * string) :=
  match data with
  | Dict items =>
      (fix for_items (items : list (string * tree)) {struct items} :=
         match items with
         | [] => []
         | (key, value) :: rest =>
             (spec_flatten value (prefix +:+ "_" +:+ upper key)
                ++ for_items rest)%list
         end) items
  | List items =>
      (fix for_enumerate (items : list tree) (index : nat) {struct items} :=
         match items with
         | [] => []
         | value :: rest =>
             (spec_flatten value (prefix +:+ "_" +:+ pretty index)
                ++ for_enumerate rest (S index))%list
         end) items 0%nat
  | Scalar v => [(prefix, str v)]
  end.

(** What [yaml.safe_load] does with the content of a file: a tree, or a
    [yaml.YAMLError] with its text. *)
Inductive yaml_result : Type :=
| YAMLError (exc : string)
| Loaded (data : tree).

(** The state [load_config] works on: the process environment and the logger
    it was given. *)
Record state : Type := mkState {
  os_environ : gmap string string;
  logger : Logging.Logger
}.

Definition setenv (k v : string) (st : state) : state :=
  {| os_environ := <[k := v]> (os_environ st); logger := logger st |}.

Definition logger_info (msg : string) (st : state) : state :=
  {| os_environ := os_environ st; logger := Logging.info msg (logger st) |}.
Definition logger_warning (msg : string) (st : state) : state :=
  {| os_environ := os_environ st; logger := Logging.warning msg (logger st) |}.
Definition logger_error (msg : string) (st : state) : state :=
  {| os_environ := os_environ st; logger := Logging.error msg (logger st) |}.

(** [load_config(path_to_config, logger)].  [files] gives the content of the
    files that exist, [safe_load] is the YAML parser. *)
Definition load_config (safe_load : string → yaml_result)
    (files : gmap string string) (path_to_config : string) (st : state)
    : bool * state :=
  let st := logger_info "Attempting to load config" st in
  match files !! path_to_config with
  | None =>
      let st := setenv "FIRST_RUN" "True" st in
      let st :=
        logger_warning "Config file does not exist, assuming first run" st in
      (false, st)
  | Some stream =>
      let st := setenv "FIRST_RUN" "False" st in
      match safe_load stream with
      | YAMLError exc =>
          let st := logger_error exc st in
          let st :=
            logger_info
              ("Config could not be loaded. Please make sure the config file is valid."
               +:+ "Optionally, delete the config file to generate a new one on next startup.")
              st in
          (false, st)
      | Loaded data =>
          let st :=
            logger_info "Config loaded, setting environment variables" st in
          let st :=
            {| os_environ := set_env_vars data "" (os_environ st);
               logger := logger st |} in
          match os_environ st !! "LOGGING_LEVEL" with
          | Some lvl =>
              if truthy lvl then
                match Logging.setLevel (Logging.LevelName lvl) (logger st) with
                | inr l =>
                    (true, {| os_environ := os_environ st; logger := l |})
                | inl Logging.ValueError =>
                    let st :=
                      logger_error ("Invalid logging level: " +:+ lvl) st in
                    (false, st)
                end
              else (true, st)
          | None => (true, st)
          end
      end
  end.

(** What [setup] reads from [sys], [os] and the platform. *)
Record sys_info : Type := mkSysInfo {
  frozen : bool;
  _MEIPASS : string;
  executable_dir : string;
  file_dir : string;
  os_name : string;
  windows_major : N;
  windows_build : N;
  SetConsoleMode_result : Z;
  colorama_installed : bool
}.

(** [get_paths()].  [executable_dir] is
    [os.path.dirname(os.path.abspath(sys.executable))], [file_dir] is
    [os.path.dirname(os.path.abspath(__file__))]. *)
Definition get_paths (sys : sys_info) : string * string :=
  if frozen sys then (_MEIPASS sys, executable_dir sys)
  else (file_dir sys, file_dir sys).

(** [enable_virtual_terminal_processing(logger)].  The result is what
    [SetConsoleMode] returns, or [0] for [False]. *)
Definition enable_virtual_terminal_processing (sys : sys_info) (st : state)
    : Z * state :=
  if bool_decide (os_name sys = "nt")
     && ((10 <=? windows_major sys)%N && (14393 <=? windows_build sys)%N)
  then
    let st := logger_info "Virtual terminal processing enabled" st in
    let st := setenv "LOGGING_COLORED" "True" st in
    (SetConsoleMode_result sys, st)
  else
    let st :=
      logger_warning
        "Virtual terminal processing not enabled, colorama will be used as a fallback"
        st in
    (0%Z, st).

(** The format string of the temporary logger. *)
Definition temp_log_format : list Logging.piece :=
  [Logging.Attr Logging.asctime; Logging.Lit " [";
   Logging.Attr Logging.levelname; Logging.Lit "] ";
   Logging.Attr Logging.name; Logging.Lit ": ";
   Logging.Attr Logging.message].

(** [LOGGING_CONFIG] of [steup_temp_logger]. *)
Definition LOGGING_CONFIG (LOG_FILE_PATH : string) : Logging.dict_config :=
  {| Logging.version := 1;
     Logging.disable_existing_loggers := false;
     Logging.filters := [];
     Logging.formatters :=
       [("colored",
         {| Logging.factory := None; Logging.format := temp_log_format |});
        ("standard",
         {| Logging.factory := None; Logging.format := temp_log_format |})];
     Logging.handlers :=
       [("default",
         {| Logging.h_level := "INFO";
            Logging.h_formatter := "colored";
            Logging.h_class := "logging.StreamHandler";
            Logging.h_filename := None;
            Logging.h_mode := None;
            Logging.h_filters := [] |});
        ("file",
         {| Logging.h_level := "INFO";
            Logging.h_formatter := "standard";
            Logging.h_class := "logging.FileHandler";
            Logging.h_filename := Some LOG_FILE_PATH;
            Logging.h_mode := Some "a";
            Logging.h_filters := [] |})];
     Logging.loggers :=
       [("",
         {| Logging.l_handlers := ["default"; "file"];
            Logging.l_level := "INFO";
            Logging.l_propagate := true |})] |}.

(** The log file of the day [today], as [steup_temp_logger] names it. *)
Definition LOG_FILE_PATH (today : string) : string :=
  Os.path_join "logs" (today +:+ ".log").

(** [steup_temp_logger()].  [today] and [now] are what
    [datetime.now().strftime] gives for ['%Y-%m-%d'] and for
    ['%Y-%m-%d %H:%M:%S'].  [None] when the function raises. *)
Definition steup_temp_logger (today now : string) (fs : gmap string Os.node)
    (m : Logging.manager)
    : option (Logging.Logger * gmap string Os.node * Logging.manager) :=
  let LOG_DIRECTORY := "logs" in
  match
    if negb (Os.path_exists LOG_DIRECTORY fs) then
      Some (Os.makedirs LOG_DIRECTORY fs)
    else if Os.path_exists (LOG_FILE_PATH today) fs then
      Os.append_text (LOG_FILE_PATH today)
        ("---------- " +:+ now +:+ " ----------" +:+ LF
         +:+ "---------- SETUP ----------" +:+ LF) fs
    else Some fs
  with
  | None => None
  | Some fs =>
      match Os.dictConfig (LOGGING_CONFIG (LOG_FILE_PATH today)) fs m with
      | None => None
      | Some (fs, m) =>
          Some (Logging.deref (Logging.getLogger (Some "SETUP")) m, fs, m)
      end
  end.

(** The state of the process [setup] runs in. *)
Record process : Type := mkProcess {
  p_environ : gmap string string;
  p_fs : gmap string Os.node;
  p_logging : Logging.manager
}.

(** [setup()].  [None] when it raises. *)
Definition setup (sys : sys_info) (safe_load : string → yaml_result)
    (today now : string) (w : process) : option process :=
  match steup_temp_logger today now (p_fs w) (p_logging w) with
  | None => None
  | Some (logger, fs, m) =>
      let st := {| os_environ := p_environ w; logger := logger |} in
      let st := logger_info "Starting setup" st in
      let '(base_path, exe_path) := get_paths sys in
      let st := setenv "BASE_PATH" base_path st in
      let st := setenv "EXE_PATH" exe_path st in
      let '(loaded, st) :=
        load_config safe_load (Os.regular_files fs)
          (exe_path +:+ "/config.yaml") st in
      if negb loaded
         && negb (bool_decide (os_environ st !! "FIRST_RUN" = Some "True"))
      then
        let m := Logging.root_error "Config could not be loaded" m in
        let st := setenv "SETUP_SUCCESS" "False" st in
        let st := logger_warning "Setup could not be completed" st in
        Some {| p_environ := os_environ st; p_fs := fs;
                p_logging := Logging.set_logger "SETUP" (Setup.logger st) m |}
      else
        let '(vt, st) := enable_virtual_terminal_processing sys st in
        let st :=
          if bool_decide (vt = 0%Z) then
            if colorama_installed sys then
              let st := logger_info "Colorama enabled for console" st in
              setenv "LOGGING_COLORED" "True" st
            else
              let st :=
                logger_warning
                  "Virtual processing and colorama not enabled, console will default to plain text"
                  st in
              setenv "LOGGING_COLORED" "False" st
          else st in
        let st := setenv "SETUP_SUCCESS" "True" st in
        let st := logger_info "Setup complete" st in
        Some {| p_environ := os_environ st; p_fs := fs;
                p_logging := Logging.set_logger "SETUP" (Setup.logger st) m |}
  end.

End Setup.

(** ** src/python/logger_config.py *)

Module LoggerConfig.
Import Py Logging.

(** [log_level]: [LOGGING_LEVEL] when it is set and not empty, else
    ["INFO"]. *)
Definition log_level (environ : gmap string string) : string :=
  match environ !! "LOGGING_LEVEL" with
  | Some l => if truthy l then l else "INFO"
  | None => "INFO"
  end.

(** The escape character ['\033']. *)
Definition ESC : string := String (ascii_of_nat 27) "".

(** [ColoredFormatter.COLORS]. *)
Definition COLORS : list (string * string) :=
  [("DEBUG", ESC +:+ "[94m"); ("INFO", ESC +:+ "[92m");
   ("WARNING", ESC +:+ "[93m"); ("ERROR", ESC +:+ "[91m");
   ("CRITICAL", ESC +:+ "[91m"); ("RESET", ESC +:+ "[0m")].

(** [COLORS['RESET']]. *)
Definition COLORS_RESET : string := default "" (dict_get COLORS "RESET").

(** [ColoredFormatter.format]. *)
Definition ColoredFormatter_format (fmt : list piece) (record : LogRecord)
    : string :=
  let log_message := Formatter_format fmt record in
  default COLORS_RESET (dict_get COLORS (levelname record))
    +:+ log_message +:+ COLORS_RESET.

(** [f"{prefix}_{index}"]. *)
Definition env_var_name (prefix : string) (index : nat) : string :=
  prefix +:+ "_" +:+ pretty index.

(** The loop of [_get_list_from_env], for at most [fuel] rounds. *)
Fixpoint while_true (fuel : nat) (prefix : string)
    (environ : gmap string string) (index : nat) (data_list : list string)
    : list string :=
  match fuel with
  | O => data_list
  | S fuel =>
      match environ !! env_var_name prefix index with
      | Some v => while_true fuel prefix environ (S index) (data_list ++ [v])
      | None => data_list
      end
  end.

(** [_get_list_from_env(prefix)]: one round more than the environment has
    variables is enough for the loop to reach its [break]
    ([get_list_from_env_break]). *)
Definition _get_list_from_env (prefix : string)
    (environ : gmap string string) : list string :=
  while_true (S (size environ)) prefix environ 0 [].

(** [LOGGING_FILTER], read from the environment the module is imported
    in. *)
Definition LOGGING_FILTER (environ : gmap string string) : list string :=
  _get_list_from_env "LOGGING_FILTER" environ.

(** [LoggingFilter.filter]. *)
Definition LoggingFilter_filter (environ : gmap string string)
    (record : LogRecord) : bool :=
  if bool_decide (name record ∈ LOGGING_FILTER environ) then false else true.

(** [log_format], chosen by [log_level]. *)
Definition log_format (environ : gmap string string) : list piece :=
  if decide (log_level environ = "DEBUG") then
    [Attr asctime; Lit " ["; Attr levelname; Lit "] "; Attr module; Lit ".";
     Attr funcName; Lit " | "; Attr name; Lit ": "; Attr message]
  else
    [Attr asctime; Lit " ["; Attr levelname; Lit "] "; Attr name; Lit ": ";
     Attr message].

(** [LOGGING_CONFIG]. *)
Definition LOGGING_CONFIG (environ : gmap string string)
    (LOG_FILE_PATH : string) : dict_config :=
  {| version := 1;
     disable_existing_loggers := false;
     filters := [("websockets_filter", LoggingFilter)];
     formatters :=
       [("colored",
         {| factory :=
              Some (if decide (environ !! "LOGGING_COLORED" = Some "True")
                    then ColoredFormatter else Formatter);
            format := log_format environ |});
        ("standard",
         {| factory := None; format := log_format environ |})];
     handlers :=
       [("default",
         {| h_level := log_level environ;
            h_formatter := "colored";
            h_class := "logging.StreamHandler";
            h_filename := None;
            h_mode := None;
            h_filters := ["websockets_filter"] |});
        ("file",
         {| h_level := log_level environ;
            h_formatter := "standard";
            h_class := "logging.FileHandler";
            h_filename := Some LOG_FILE_PATH;
            h_mode := Some "a";
            h_filters := ["websockets_filter"] |})];
     loggers :=
       [("",
         {| l_handlers := ["default"; "file"];
            l_level := log_level environ;
            l_propagate := true |})] |}.

(** What a formatter of the given class makes of a record. *)
Definition format_record (e : formatter_entry) (record : LogRecord)
    : string :=
  match formatter_class_of e with
  | ColoredFormatter => ColoredFormatter_format (format e) record
  | Formatter => Formatter_format (format e) record
  end.

(** What a handler of this module writes for a record. *)
Definition handle (environ : gmap string string) (h : handler)
    (record : LogRecord) : option string :=
  Handler_handle (λ _ : filter_class, LoggingFilter_filter environ)
    format_record h record.

(** [set_log_level(logger, level)]. *)
Definition set_log_level (logger : logger_ref) (level : level_arg)
    (m : manager) : exception + manager :=
  setLevel_ref (getLogger None) (LevelNo INFO) m.

(** [LOG_BASEPATH]; [module_root] is
    [os.path.dirname(os.path.dirname(__file__))]. *)
Definition LOG_BASEPATH (environ : gmap string string) (module_root : string)
    : string :=
  match environ !! "BASE_PATH" with
  | Some b => if truthy b then b else module_root
  | None => module_root
  end.

Definition LOG_FOLDER (environ : gmap string string) : string :=
  match environ !! "LOGGING_DIRECTORY" with
  | Some d => if truthy d then d else "logs"
  | None => "logs"
  end.

Definition LOG_DIRECTORY (environ : gmap string string)
    (module_root : string) : string :=
  Os.path_join (LOG_BASEPATH environ module_root) (LOG_FOLDER environ).

Definition LOG_FILENAME (today : string) : string := today +:+ ".log".

Definition LOG_FILE_PATH (environ : gmap string string)
    (module_root today : string) : string :=
  Os.path_join (LOG_DIRECTORY environ module_root) (LOG_FILENAME today).

(** [ensure_log_directory_exists()], for the directory and the file the
    module has computed; [None] when it raises. *)
Definition ensure_log_directory_exists
    (LOG_DIRECTORY LOG_FILE_PATH current_timestamp : string)
    (fs : gmap string Os.node) : option (gmap string Os.node) :=
  if negb (Os.path_exists LOG_DIRECTORY fs) then
    Some (Os.makedirs LOG_DIRECTORY fs)
  else if Os.path_exists LOG_FILE_PATH fs then
    Os.append_text LOG_FILE_PATH
      ("---------- " +:+ current_timestamp +:+ " ----------" +:+ LF
       +:+ "---------- APPLICATION ----------" +:+ LF) fs
  else Some fs.

(** What importing the module does to the file system and to the loggers:
    [ensure_log_directory_exists()], then [dictConfig(LOGGING_CONFIG)]. *)
Definition import_module (environ : gmap string string)
    (module_root today now : string) (fs : gmap string Os.node) (m : manager)
    : option (gmap string Os.node * manager) :=
  match ensure_log_directory_exists (LOG_DIRECTORY environ module_root)
          (LOG_FILE_PATH environ module_root today) now fs with
  | None => None
  | Some fs =>
      Os.dictConfig
        (LOGGING_CONFIG environ (LOG_FILE_PATH environ module_root today))
        fs m
  end.

End LoggerConfig.

(** ** src/logger_config.py *)

Module RootLoggerConfig.
Import Py Logging.

Definition LOG_LEVEL : string := "DEBUG".
Definition FILTER : list string := ["websockets.server"; "websockets.client"].

(** [LoggingFilter.filter]. *)
Definition LoggingFilter_filter (record : LogRecord) : bool :=
  if bool_decide (name record ∈ FILTER) then false else true.

(** The format string of both formatters. *)
Definition log_format : list piece :=
  [Attr asctime; Lit " ["; Attr levelname; Lit "] "; Attr name; Lit ": ";
   Attr message].

(** [LOGGING_CONFIG]; the class [ColoredFormatter] has the same text as in
    [src/python/logger_config.py]. *)
Definition LOGGING_CONFIG (LOG_FILE_PATH : string) : dict_config :=
  {| version := 1;
     disable_existing_loggers := false;
     filters := [("websockets_filter", LoggingFilter)];
     formatters :=
       [("colored",
         {| factory := Some ColoredFormatter; format := log_format |});
        ("standard",
         {| factory := None; format := log_format |})];
     handlers :=
       [("default",
         {| h_level := LOG_LEVEL;
            h_formatter := "colored";
            h_class := "logging.StreamHandler";
            h_filename := None;
            h_mode := None;
            h_filters := ["websockets_filter"] |});
        ("file",
         {| h_level := LOG_LEVEL;
            h_formatter := "standard";
            h_class := "logging.FileHandler";
            h_filename := Some LOG_FILE_PATH;
            h_mode := Some "a";
            h_filters := ["websockets_filter"] |})];
     loggers :=
       [("",
         {| l_handlers := ["default"; "file"];
            l_level := LOG_LEVEL;
            l_propagate := true |})] |}.

(** What a handler of this module writes for a record. *)
Definition handle (h : handler) (record : LogRecord) : option string :=
  Handler_handle (λ _ : filter_class, LoggingFilter_filter)
    LoggerConfig.format_record h record.

Definition LOG_DIRECTORY : string := "logs".

Definition LOG_FILENAME (today : string) : string := today +:+ ".log".

Definition LOG_FILE_PATH (today : string) : string :=
  Os.path_join LOG_DIRECTORY (LOG_FILENAME today).

(** [ensure_log_directory_exists()]; [None] when it raises. *)
Definition ensure_log_directory_exists (today current_timestamp : string)
    (fs : gmap string Os.node) : option (gmap string Os.node) :=
  if negb (Os.path_exists LOG_DIRECTORY fs) then
    Some (Os.makedirs LOG_DIRECTORY fs)
  else if Os.path_exists (LOG_FILE_PATH today) fs then
    Os.append_text (LOG_FILE_PATH today)
      ("---------- " +:+ current_timestamp +:+ " ----------" +:+ LF) fs
  else Some fs.

(** What importing the module does to the file system and to the loggers:
    [ensure_log_directory_exists()], then [dictConfig(LOGGING_CONFIG)]. *)
Definition import_module (today now : string) (fs : gmap string Os.node)
    (m : manager) : option (gmap string Os.node * manager) :=
  match ensure_log_directory_exists today now fs with
  | None => None
  | Some fs => Os.dictConfig (LOGGING_CONFIG (LOG_FILE_PATH today)) fs m
  end.

End RootLoggerConfig.

(** ** src/python/setup.py, with the exceptions it lets through

    [Setup.set_env_vars] and [Setup.load_config] above take [os.environ] for
    a total map and mapping keys for strings.  The definitions of this module
    follow the same source lines and keep what those leave out: a mapping key
    need not be a string, and then [key.upper()] raises; [os.environ[k] = v]
    raises for a name or value it does not accept, and what follows is not
    run; [open] raises on a directory.  [upper] is [str.upper] and [accepts]
    tells what [os.environ] takes; both are parameters. *)

Module Strict.
Import Py.

Inductive exception : Type :=
| AttributeError
| ValueError
| IsADirectoryError.

(** A mapping key: a string, or an object of another type (an int, a bool,
    [None]), which has no [upper]. *)
Inductive key : Type :=
| StrKey (s : string)
| OtherKey.

#[local] Unset Elimination Schemes.
Inductive tree : Type :=
| Scalar (v : scalar)
| List (items : list tree)
| Dict (items : list (key * tree)).
#[local] Set Elimination Schemes.

Section tree_induction.
Variable P : tree → Prop.
Hypothesis case_Scalar : ∀ v, P (Scalar v).
Hypothesis case_List : ∀ items, Forall P items → P (List items).
Hypothesis case_Dict :
  ∀ items, Forall (λ kv : key * tree, P kv.2) items → P (Dict items).

Fixpoint tree_ind (data : tree) : P data :=
  match data with
  | Scalar v => case_Scalar v
  | List items =>
      case_List items
        ((fix all (items : list tree) : Forall P items :=
            match items with
            | [] => @List.Forall_nil _ _
            | value :: rest =>
                @List.Forall_cons _ P value rest (tree_ind value) (all rest)
            end) items)
  | Dict items =>
      case_Dict items
        ((fix all (items : list (key * tree))
            : Forall (λ kv : key * tree, P kv.2) items :=
            match items with
            | [] => @List.Forall_nil _ _
            | (k, value) :: rest =>
                @List.Forall_cons _ (λ kv : key * tree, P kv.2)
                  (k, value) rest (tree_ind value) (all rest)
            end) items)
  end.
End tree_induction.

(** The root of the tree is a mapping or a sequence. *)
Definition container (data : tree) : Prop :=
  match data with
  | Scalar _ => False
  | _ => True
  end.

Section with_platform.
Variable upper : string → string.
Variable accepts : string → string → bool.

(** [set_env_vars(data, prefix)]: the environment it leaves and the
    exception it raises, if any. *)
Fixpoint set_env_vars (data : tree) (prefix : string)
    (environ : gmap string string) {struct data}
    : gmap string string * option exception :=
  match data with
  | Dict items =>
      (fix for_items (items : list (key * tree))
           (environ : gmap string string) {struct items} :=
         match items with
         | [] => (environ, None)
         | (OtherKey, _) :: _ => (environ, Some AttributeError)
         | (StrKey k, value) :: rest =>
             match set_env_vars value (Setup.new_prefix prefix (upper k))
                     environ with
             | (environ, None) => for_items rest environ
             | raised => raised
             end
         end) items environ
  | List items =>
      (fix for_enumerate (items : list tree) (index : nat)
           (environ : gmap string string) {struct items} :=
         match items with
         | [] => (environ, None)
         | value :: rest =>
             match set_env_vars value
                     (Setup.new_prefix prefix (pretty index)) environ with
             | (environ, None) => for_enumerate rest (S index) environ
             | raised => raised
             end
         end) items 0%nat environ
  | Scalar v =>
      if accepts prefix (str v) then (<[prefix := str v]> environ, None)
      else (environ, Some ValueError)
  end.

(** The scalar leaves under string keys, in traversal order, each with its
    derived name and its stringified value. *)
Fixpoint leaves (data : tree) (prefix : string) {struct data}
    : list (string * string) :=
  match data with
  | Dict items =>
      (fix for_items (items : list (key * tree)) {struct items} :=
         match items with
         | [] => []
         | (OtherKey, _) :: rest => for_items rest
         | (StrKey k, value) :: rest =>
             leaves value (Setup.new_prefix prefix (upper k))
             ++ for_items rest
         end) items
  | List items =>
      (fix for_enumerate (items : list tree) (index : nat) {struct items} :=
         match items with
         | [] => []
         | value :: rest =>
             leaves value (Setup.new_prefix prefix (pretty index))
             ++ for_enumerate rest (S index)
         end) items 0%nat
  | Scalar v => [(prefix, str v)]
  end.

Inductive yaml_result : Type :=
| YAMLError (exc : string)
| Loaded (data : tree).

(** How a call ends: with a value, or with an exception. *)
Inductive outcome : Type :=
| Returned (b : bool)
| Raised (e : exception).

(** [load_config(path_to_config, logger)] on a file system. *)
Definition load_config (safe_load : string → yaml_result)
    (fs : gmap string Os.node) (path_to_config : string) (st : Setup.state)
    : outcome * Setup.state :=
  let st := Setup.logger_info "Attempting to load config" st in
  match fs !! path_to_config with
  | None =>
      let st := Setup.setenv "FIRST_RUN" "True" st in
      let st :=
        Setup.logger_warning "Config file does not exist, assuming first run"
          st in
      (Returned false, st)
  | Some Os.Dir =>
      (Raised IsADirectoryError, Setup.setenv "FIRST_RUN" "False" st)
  | Some (Os.File stream) =>
      let st := Setup.setenv "FIRST_RUN" "False" st in
      match safe_load stream with
      | YAMLError exc =>
          let st := Setup.logger_error exc st in
          let st :=
            Setup.logger_info
              ("Config could not be loaded. Please make sure the config file is valid."
               +:+ "Optionally, delete the config file to generate a new one on next startup.")
              st in
          (Returned false, st)
      | Loaded data =>
          let st :=
            Setup.logger_info "Config loaded, setting environment variables"
              st in
          match set_env_vars data "" (Setup.os_environ st) with
          | (environ, Some e) =>
              (Raised e,
               {| Setup.os_environ := environ;
                  Setup.logger := Setup.logger st |})
          | (environ, None) =>
              let st :=
                {| Setup.os_environ := environ;
                   Setup.logger := Setup.logger st |} in
              match environ !! "LOGGING_LEVEL" with
              | Some lvl =>
                  if truthy lvl then
                    match Logging.setLevel (Logging.LevelName lvl)
                            (Setup.logger st) with
                    | inr l =>
                        (Returned true,
                         {| Setup.os_environ := environ;
                            Setup.logger := l |})
                    | inl Logging.ValueError =>
                        (Returned false,
                         Setup.logger_error
                           ("Invalid logging level: " +:+ lvl) st)
                    end
                  else (Returned true, st)
              | None => (Returned true, st)
              end
          end
      end
  end.

End with_platform.

(** What [os.environ] takes on a POSIX system: a name that is not empty and
    has no [=] in it, and no NUL in name or value. *)
Fixpoint has_char (c : ascii) (s : string) : bool :=
  match s with
  | EmptyString => false
  | String c' rest => bool_decide (c' = c) || has_char c rest
  end.

Definition posix_accepts (name value : string) : bool :=
  truthy name && negb (has_char "="%char name)
  && negb (has_char (ascii_of_nat 0) name)
  && negb (has_char (ascii_of_nat 0) value).

End Strict.

(** ** Statements of the specification, as predicates on the code *)

Module Spec.
Import Py Logging Setup.

(** Looking up every scalar leaf by its derived name returns the stringified
    value of that leaf. *)
Definition lookup_returns_leaf (data : tree)
    (environ : gmap string string) : Prop :=
  ∀ path v, (path, v) ∈ leaf_paths data →
    set_env_vars data "" environ !! derived_key path = Some (str v).

(** The root of the tree is a mapping or a sequence. *)
Definition container (data : tree) : Prop :=
  match data with
  | Scalar _ => False
  | _ => True
  end.


(** What is to happen with a logging level [lvl] that the config sets, given
    the result [r] of [load_config]: the level is applied to the logger; an
    invalid one is reported as an error and the load fails. *)
Definition level_override_outcome (lvl : string) (r : bool * state) : Prop :=
  match dict_get _nameToLevel lvl with
  | Some n => level (logger r.2) = n
  | None =>
      r.1 = false
      ∧ ("ERROR", "Invalid logging level: " +:+ lvl) ∈ calls (logger r.2)
  end.

(** The console handler of a configuration that depends on the environment
    gets the colour-capable formatter when [LOGGING_COLORED] is ["True"],
    and [logging.Formatter] otherwise. *)
Definition console_colored_by_flag
    (config : gmap string string → dict_config) : Prop :=
  ∀ environ,
    formatter_class_of <$> handler_formatter (config environ) "default"
    = Some (if decide (environ !! "LOGGING_COLORED" = Some "True")
            then ColoredFormatter else Formatter).

(** The file handler of a configuration gets [logging.Formatter]. *)
Definition file_plain (config : dict_config) : Prop :=
  formatter_class_of <$> handler_formatter config "file" = Some Formatter.

(** The terminal accepted virtual terminal processing: a Windows of version
    10, build 14393, or later, on which [SetConsoleMode] did not return
    [0]. *)
Definition vt_enabled (sys : sys_info) : bool :=
  bool_decide (os_name sys = "nt")
  && ((10 <=? windows_major sys)%N && (14393 <=? windows_build sys)%N)
  && negb (bool_decide (SetConsoleMode_result sys = 0%Z)).

(** What [setup] sets [LOGGING_COLORED] to when it runs its terminal check:
    ["True"] when the terminal accepted virtual terminal processing or
    [colorama] is installed, ["False"] otherwise. *)
Definition colored_flag (sys : sys_info) : string :=
  if vt_enabled sys || colorama_installed sys then "True" else "False".

(** The call of [load_config] that [setup] makes, on the files of the
    process as [setup] found them: for [config.yaml] next to the executable,
    with [BASE_PATH] and [EXE_PATH] set and the logger [SETUP] told that the
    setup starts. *)
Definition setup_load (sys : sys_info) (safe_load : string → yaml_result)
    (w : process) : bool * state :=
  load_config safe_load (Os.regular_files (p_fs w))
    ((get_paths sys).2 +:+ "/config.yaml")
    {| os_environ :=
         <["EXE_PATH" := (get_paths sys).2]>
           (<["BASE_PATH" := (get_paths sys).1]> (p_environ w));
       logger :=
         info "Starting setup"
           (deref (NamedLogger "SETUP") (p_logging w)) |}.

(** [setup] takes the load for failed: it returned [False] and [FIRST_RUN]
    is not ["True"]. *)
Definition load_failed (r : bool * state) : bool :=
  negb r.1 && negb (bool_decide (os_environ r.2 !! "FIRST_RUN" = Some "True")).

End Spec.

(** ** Sample inputs *)

Module Samples.
Import Py Logging Setup.

(** [{"a": 1, "A": 2}]: two keys that differ only in case. *)
Definition case_clash : tree :=
  Dict [("a", Scalar (PyInt 1)); ("A", Scalar (PyInt 2))].

(** [{"a": 1}]. *)
Definition single : tree := Dict [("a", Scalar (PyInt 1))].

(** [{"logging": {"level": "DEBUG", "filter": ["websockets.server", None]},
      "port": 8080, "debug": True}]. *)
Definition sample : tree :=
  Dict [("logging",
         Dict [("level", Scalar (PyStr "DEBUG"));
               ("filter",
                List [Scalar (PyStr "websockets.server"); Scalar PyNone])]);
        ("port", Scalar (PyInt 8080));
        ("debug", Scalar (PyBool true))].

(** [{"logging": {"level": ""}}]: the level is the empty string. *)
Definition empty_level : tree :=
  Dict [("logging", Dict [("level", Scalar (PyStr ""))])].

(** An empty environment and a logger whose level was never set. *)
Definition fresh : state :=
  {| os_environ := ∅; logger := {| level := NOTSET; calls := [] |} |}.

(** [{"logging": {"level": "verbose"}, "port": 8080}]: a level name that
    [logging] does not know. *)
Definition bad_level : tree :=
  Dict [("logging", Dict [("level", Scalar (PyStr "verbose"))]);
        ("port", Scalar (PyInt 8080))].

(** A record of the logger [websockets.server]. *)
Definition noisy (levelno : nat) (levelname : string) : LogRecord :=
  {| name := "websockets.server"; levelno := levelno;
     levelname := levelname; asctime := "2024-01-01 00:00:00,000";
     module := "server"; funcName := "handler"; message := "connection open" |}.

(** An environment as [setup] leaves it. *)
Definition colored_env : gmap string string :=
  {[ "LOGGING_COLORED" := "True";
     "LOGGING_FILTER_0" := "websockets.server";
     "LOGGING_FILTER_1" := "websockets.client" ]}.

(** A Linux machine with [colorama] installed, the program run from
    [/opt/app]. *)
Definition linux : sys_info :=
  {| frozen := false; _MEIPASS := ""; executable_dir := "/usr/bin";
     file_dir := "/opt/app"; os_name := "posix"; windows_major := 0;
     windows_build := 0; SetConsoleMode_result := 0;
     colorama_installed := true |}.

(** A process at its first start: no variable, no file, the root logger at
    its default level. *)
Definition first_boot : process :=
  {| p_environ := ∅; p_fs := ∅;
     p_logging :=
       {| root := {| level := WARNING; calls := [] |}; loggerDict := ∅ |} |}.

(** The same with a config file. *)
Definition with_config : process :=
  {| p_environ := ∅;
     p_fs := {[ "/opt/app/config.yaml" := Os.File "a: b: c" ]};
     p_logging :=
       {| root := {| level := WARNING; calls := [] |}; loggerDict := ∅ |} |}.

(** [{"logging": {"level": "DEBUG", "filter": ["websockets.server"]},
      "port": 8080}], keys and all. *)
Definition strict_sample : Strict.tree :=
  Strict.Dict
    [(Strict.StrKey "logging",
      Strict.Dict
        [(Strict.StrKey "level", Strict.Scalar (PyStr "DEBUG"));
         (Strict.StrKey "filter",
          Strict.List [Strict.Scalar (PyStr "websockets.server")])]);
     (Strict.StrKey "port", Strict.Scalar (PyInt 8080))].

(** [{"a": 1, "": 2, "b": 3}]: the empty key derives the empty name. *)
Definition empty_key : Strict.tree :=
  Strict.Dict
    [(Strict.StrKey "a", Strict.Scalar (PyInt 1));
     (Strict.StrKey "", Strict.Scalar (PyInt 2));
     (Strict.StrKey "b", Strict.Scalar (PyInt 3))].

(** [{"port": 8080, True: 1}]: a key that is no string. *)
Definition bool_key : Strict.tree :=
  Strict.Dict
    [(Strict.StrKey "port", Strict.Scalar (PyInt 8080));
     (Strict.OtherKey, Strict.Scalar (PyInt 1))].

(** A file system with a config file. *)
Definition config_fs : gmap string Os.node :=
  {[ "config.yaml" := Os.File "logging: ..." ]}.

End Samples.

(** * Properties *)

Import Py Logging Setup Spec Samples.

(** ** Flattening *)

Section store_all_facts.
Implicit Types (kvs : list (string * string)) (env : gmap string string).

Lemma store_all_app kvs1 kvs2 env :
  store_all (kvs1 ++ kvs2) env = store_all kvs2 (store_all kvs1 env).
Proof. unfold store_all. apply foldl_app. Qed.

Lemma store_all_cons k v kvs env :
  store_all ((k, v) :: kvs) env = store_all kvs (<[k := v]> env).
Proof. reflexivity. Qed.

Lemma store_all_lookup_notin kvs env k :
  k ∉ kvs.*1 → store_all kvs env !! k = env !! k.
Proof.
  revert env. induction kvs as [|[k' v'] kvs IH]; intros env Hk; [done|].
  rewrite store_all_cons, IH.
  - apply lookup_insert_ne. intros ->. apply Hk. simpl. left.
  - intros Hin. apply Hk. simpl. by right.
Qed.

Lemma store_all_lookup_last kvs1 k v kvs2 env :
  k ∉ kvs2.*1 → store_all (kvs1 ++ (k, v) :: kvs2) env !! k = Some v.
Proof.
  intros Hk. rewrite store_all_app, store_all_cons.
  rewrite store_all_lookup_notin by done. apply lookup_insert_eq.
Qed.





End store_all_facts.

Section flattening.
Implicit Types (data : tree) (prefix : string) (env : gmap string string).



(** The state-passing traversal stores its leaves in traversal order. *)
Lemma set_env_vars_store data :
  ∀ prefix env,
    set_env_vars data prefix env = store_all (leaves data prefix) env.
Proof.
  induction data as [v|items IH|items IH] using tree_ind;
    intros prefix env.
  - reflexivity.
  - simpl. generalize 0%nat. revert env.
    induction IH as [|value rest Hvalue _ IHrest]; intros env index; simpl.
    + reflexivity.
    + rewrite store_all_app, <-Hvalue. apply IHrest.
  - simpl. revert env.
    induction IH as [|[key value] rest Hvalue _ IHrest]; intros env; simpl.
    + reflexivity.
    + rewrite store_all_app, <-Hvalue. apply IHrest.
Qed.




(** The leaves, by their paths: the name is derived along the path, the
    value is stringified. *)
Lemma leaves_leaf_paths_from data :
  ∀ prefix,
    leaves data prefix
    = (λ pv : list step * scalar, (derive prefix pv.1, str pv.2))
        <$> leaf_paths data.
Proof.
  induction data as [v|items IH|items IH] using tree_ind; intros prefix.
  - reflexivity.
  - simpl. generalize 0%nat.
    induction IH as [|value rest Hvalue _ IHrest]; intros index; simpl.
    + reflexivity.
    + rewrite fmap_app, <-list_fmap_compose, Hvalue, IHrest. reflexivity.
  - simpl.
    induction IH as [|[key value] rest Hvalue _ IHrest]; simpl.
    + reflexivity.
    + simpl in Hvalue.
      rewrite fmap_app, <-list_fmap_compose, Hvalue, IHrest. reflexivity.
Qed.

Lemma leaves_leaf_paths data :
  leaves data ""
  = (λ pv : list step * scalar, (derived_key pv.1, str pv.2))
      <$> leaf_paths data.
Proof. apply leaves_leaf_paths_from. Qed.

Lemma string_app_assoc (s1 s2 s3 : string) :
  (s1 +:+ s2) +:+ s3 = s1 +:+ (s2 +:+ s3).
Proof.
  induction s1 as [|c s1 IH]; [done|].
  change (String c ((s1 +:+ s2) +:+ s3) = String c (s1 +:+ (s2 +:+ s3))).
  by rewrite IH.
Qed.


End flattening.

Example leaves_sample :
  leaves sample ""
  = [("LOGGING_LEVEL", "DEBUG"); ("LOGGING_FILTER_0", "websockets.server");
     ("LOGGING_FILTER_1", "None"); ("PORT", "8080"); ("DEBUG", "True")].
Proof. vm_compute. reflexivity. Qed.

Example leaf_paths_case_clash :
  leaf_paths case_clash = [([Key "a"], PyInt 1); ([Key "A"], PyInt 2)]
  ∧ derived_key [Key "a"] = "A" ∧ derived_key [Key "A"] = "A".
Proof. repeat split. Qed.

(** C1, as stated, fails.  The mapping [{"a": 1, "A": 2}] has distinct keys,
    both leaves derive the name [A], and after flattening [A] holds ["2"]:
    looking up the leaf [1] by its derived name does not return ["1"]. *)
Lemma lookup_returns_leaf_case_clash :
  dict_ok case_clash ∧ container case_clash
  ∧ ¬ lookup_returns_leaf case_clash ∅.
Proof.
  split; [|split].
  - simpl. split; [|done].
    apply NoDup_cons. split.
    + intros Hin. apply list_elem_of_singleton in Hin. discriminate.
    + apply NoDup_singleton.
  - exact I.
  - intros H. specialize (H [Key "a"] (PyInt 1)).
    assert (Hin : ([Key "a"], PyInt 1) ∈ leaf_paths case_clash) by left.
    apply H in Hin. vm_compute in Hin. discriminate.
Qed.

(** When the derived names are pairwise distinct, every leaf is found under
    its name. *)
Lemma lookup_returns_leaf_NoDup data env :
  NoDup (flat_keys data "") → lookup_returns_leaf data env.
Proof.
  intros Hnd path v Hin.
  apply list_elem_of_split in Hin as (before & after & Hleaves).
  unfold flat_keys in Hnd.
  rewrite set_env_vars_store, leaves_leaf_paths, Hleaves in *.
  rewrite fmap_app, fmap_cons in *. apply store_all_lookup_last.
  rewrite fmap_app, fmap_cons in Hnd.
  apply NoDup_app in Hnd as (_ & _ & Hnd).
  by apply NoDup_cons in Hnd as [? _].
Qed.


Example set_env_vars_single :
  set_env_vars single "" ∅ = {[ "A" := "1" ]}
  ∧ store_all (spec_flatten single "") ∅ = {[ "_A" := "1" ]}.
Proof. split; apply map_eq; intros k; vm_compute; reflexivity. Qed.


Example derived_key_sample :
  derived_key [Key "logging"; Key "filter"; Index 1] = "LOGGING_FILTER_1".
Proof. reflexivity. Qed.




(** ** Loading the configuration *)

Section load_config_facts.
Variable safe_load : string → yaml_result.
Variable files : gmap string string.
Implicit Types (st : state) (path stream lvl : string) (data : tree).

(** The environment after a successful parse: [FIRST_RUN] is reset, then the
    tree is flattened. *)
Lemma load_config_Loaded path stream data st :
  files !! path = Some stream →
  safe_load stream = Loaded data →
  let env' := set_env_vars data "" (<["FIRST_RUN" := "False"]> (os_environ st)) in
  let lg := info "Config loaded, setting environment variables"
              (info "Attempting to load config" (logger st)) in
  load_config safe_load files path st
  = match env' !! "LOGGING_LEVEL" with
    | Some lvl =>
        if truthy lvl then
          match dict_get _nameToLevel lvl with
          | Some n =>
              (true, {| os_environ := env';
                        logger := {| level := n; calls := calls lg |} |})
          | None =>
              (false, {| os_environ := env';
                         logger := error ("Invalid logging level: " +:+ lvl) lg |})
          end
        else (true, {| os_environ := env'; logger := lg |})
    | None => (true, {| os_environ := env'; logger := lg |})
    end.
Proof.
  intros Hfile Hparse. unfold load_config. rewrite Hfile, Hparse. simpl.
  destruct (set_env_vars _ _ _ !! "LOGGING_LEVEL") as [lvl|]; [|done].
  destruct (truthy lvl); [|done].
  unfold setLevel, _checkLevel.
  by destruct (dict_get _nameToLevel lvl).
Qed.

Lemma truthy_nonempty (s : string) : s ≠ "" → truthy s = true.
Proof. by destruct s. Qed.

End load_config_facts.

(** C3: when no file exists at the path, [load_config] sets [FIRST_RUN] to
    ["True"] and returns [False]. *)
Theorem load_config_missing safe_load files path st :
  files !! path = None →
  (load_config safe_load files path st).1 = false
  ∧ os_environ (load_config safe_load files path st).2 !! "FIRST_RUN"
    = Some "True".
Proof.
  intros Hfile. unfold load_config. rewrite Hfile. simpl.
  split; [done|]. apply lookup_insert_eq.
Qed.

Lemma load_config_missing_witness :
  (load_config (λ _, Loaded sample) ∅ "/opt/app/config.yaml"
     {| os_environ := {[ "FIRST_RUN" := "False" ]};
        logger := {| level := INFO; calls := [] |} |}).1 = false
  ∧ os_environ
      (load_config (λ _, Loaded sample) ∅ "/opt/app/config.yaml"
         {| os_environ := {[ "FIRST_RUN" := "False" ]};
            logger := {| level := INFO; calls := [] |} |}).2
    !! "FIRST_RUN" = Some "True".
Proof.
  apply (load_config_missing (λ _, Loaded sample) ∅ "/opt/app/config.yaml").
  reflexivity.
Defined.

(** C4: when the file exists and its content does not parse, [load_config]
    returns [False], and [FIRST_RUN] is ["False"], not ["True"]; the parse
    error is handed to [logger.error]. *)
Theorem load_config_parse_error safe_load files path stream exc st :
  files !! path = Some stream →
  safe_load stream = YAMLError exc →
  (load_config safe_load files path st).1 = false
  ∧ os_environ (load_config safe_load files path st).2 !! "FIRST_RUN"
    = Some "False"
  ∧ os_environ (load_config safe_load files path st).2 !! "FIRST_RUN"
    ≠ Some "True"
  ∧ ("ERROR", exc) ∈ calls (logger (load_config safe_load files path st).2).
Proof.
  intros Hfile Hparse. unfold load_config. rewrite Hfile, Hparse. simpl.
  split; [done|]. rewrite lookup_insert_eq.
  split; [done|]. split; [discriminate|].
  rewrite !elem_of_app. left. right. left.
Qed.

Lemma load_config_parse_error_witness :
  (load_config (λ _, YAMLError "mapping values are not allowed here")
     {[ "config.yaml" := "a: b: c" ]} "config.yaml"
     {| os_environ := {[ "FIRST_RUN" := "True" ]};
        logger := {| level := INFO; calls := [] |} |}).1 = false
  ∧ os_environ
      (load_config (λ _, YAMLError "mapping values are not allowed here")
         {[ "config.yaml" := "a: b: c" ]} "config.yaml"
         {| os_environ := {[ "FIRST_RUN" := "True" ]};
            logger := {| level := INFO; calls := [] |} |}).2
    !! "FIRST_RUN" ≠ Some "True".
Proof.
  destruct (load_config_parse_error
              (λ _, YAMLError "mapping values are not allowed here")
              {[ "config.yaml" := "a: b: c" ]} "config.yaml" "a: b: c"
              "mapping values are not allowed here"
              {| os_environ := {[ "FIRST_RUN" := "True" ]};
                 logger := {| level := INFO; calls := [] |} |})
    as (Hret & _ & Hflag & _).
  - reflexivity.
  - reflexivity.
  - split; [exact Hret | exact Hflag].
Defined.

(** C5, as stated, fails for a config that sets the level to the empty
    string: [{"logging": {"level": ""}}] puts [LOGGING_LEVEL=""] into the
    environment, the empty string is no level name, and yet [load_config]
    returns [True] and reports nothing. *)
Lemma level_override_empty_fails :
  set_env_vars empty_level "" (<["FIRST_RUN" := "False"]> (os_environ fresh))
    !! "LOGGING_LEVEL" = Some ""
  ∧ (load_config (λ _, Loaded empty_level) {[ "config.yaml" := "" ]}
       "config.yaml" fresh).1 = true
  ∧ ¬ level_override_outcome ""
        (load_config (λ _, Loaded empty_level) {[ "config.yaml" := "" ]}
           "config.yaml" fresh).
Proof.
  split; [vm_compute; reflexivity|]. split; [reflexivity|].
  unfold level_override_outcome.
  change (dict_get _nameToLevel "") with (@None nat).
  intros [Hret _]. vm_compute in Hret. discriminate.
Qed.

(** An empty [LOGGING_LEVEL] counts as no override: nothing is handed to
    [logger.setLevel] and the load succeeds. *)
Lemma load_config_empty_level safe_load files path stream data st :
  files !! path = Some stream →
  safe_load stream = Loaded data →
  set_env_vars data "" (<["FIRST_RUN" := "False"]> (os_environ st))
    !! "LOGGING_LEVEL" = Some "" →
  (load_config safe_load files path st).1 = true
  ∧ level (logger (load_config safe_load files path st).2)
    = level (logger st).
Proof.
  intros Hfile Hparse Hlvl.
  rewrite (load_config_Loaded safe_load files path stream data st Hfile Hparse).
  cbv zeta. by rewrite Hlvl.
Qed.



(** ** Logging setup *)

(** C10: whatever logger and level it is given, [set_log_level] sets the
    level of the root logger to [INFO] and changes nothing else. *)
Theorem set_log_level_ignores_arguments logger level m :
  ∃ m',
    LoggerConfig.set_log_level logger level m = inr m'
    ∧ Logging.level (root m') = INFO
    ∧ calls (root m') = calls (root m)
    ∧ loggerDict m' = loggerDict m
    ∧ (∀ n, deref (NamedLogger n) m' = deref (NamedLogger n) m)
    ∧ (∀ logger' level',
         LoggerConfig.set_log_level logger' level' m = inr m').
Proof.
  eexists. split; [reflexivity|]. simpl. by repeat split.
Qed.

Example set_log_level_named :
  LoggerConfig.set_log_level (NamedLogger "app") (LevelName "DEBUG")
    {| root := {| level := WARNING; calls := [] |};
       loggerDict := {[ "app" := {| level := ERROR; calls := [] |} ]} |}
  = inr {| root := {| level := INFO; calls := [] |};
           loggerDict := {[ "app" := {| level := ERROR; calls := [] |} ]} |}.
Proof. reflexivity. Qed.

(** C6: the suppression filter rejects a record exactly when the name of
    its logger is in the exclusion list ([LOGGING_FILTER], read from the
    environment, in [src/python/logger_config.py]; [FILTER] in
    [src/logger_config.py]); nothing else of the record, its level
    included, matters, and every other record passes. *)
Theorem LoggingFilter_filter_by_name environ record :
  (LoggerConfig.LoggingFilter_filter environ record = false
   ↔ name record ∈ LoggerConfig.LOGGING_FILTER environ)
  ∧ (LoggerConfig.LoggingFilter_filter environ record = true
     ↔ name record ∉ LoggerConfig.LOGGING_FILTER environ)
  ∧ (RootLoggerConfig.LoggingFilter_filter record = false
     ↔ name record ∈ RootLoggerConfig.FILTER)
  ∧ (RootLoggerConfig.LoggingFilter_filter record = true
     ↔ name record ∉ RootLoggerConfig.FILTER)
  ∧ (∀ record',
       name record' = name record →
       LoggerConfig.LoggingFilter_filter environ record'
       = LoggerConfig.LoggingFilter_filter environ record
       ∧ RootLoggerConfig.LoggingFilter_filter record'
         = RootLoggerConfig.LoggingFilter_filter record).
Proof.
  unfold LoggerConfig.LoggingFilter_filter,
    RootLoggerConfig.LoggingFilter_filter.
  repeat split.
  all: try (intros H; case_bool_decide; done).
  all: try (intros H; by rewrite bool_decide_eq_true_2).
  all: try (intros H; by rewrite bool_decide_eq_false_2).
  all: by rewrite H.
Qed.

Lemma LoggingFilter_filter_by_name_witness :
  LoggerConfig.LoggingFilter_filter colored_env (noisy CRITICAL "CRITICAL")
  = false
  ∧ RootLoggerConfig.LoggingFilter_filter (noisy DEBUG "DEBUG") = false.
Proof.
  split.
  - apply (proj1 (LoggingFilter_filter_by_name colored_env
                    (noisy CRITICAL "CRITICAL"))).
    vm_compute. left.
  - apply (proj1 (proj2 (proj2 (LoggingFilter_filter_by_name ∅
                                  (noisy DEBUG "DEBUG"))))).
    vm_compute. left.
Defined.

Section get_list_from_env_facts.
Import LoggerConfig.
Implicit Types (prefix : string) (env : gmap string string).

Lemma env_var_name_inj prefix : Inj (=) (=) (env_var_name prefix).
Proof.
  intros i j Heq. unfold env_var_name in Heq.
  apply (inj (String.app prefix)) in Heq.
  apply (inj (String.app "_")) in Heq.
  by apply (inj pretty) in Heq.
Qed.

(** Consecutive variables of a prefix are distinct variables of the
    environment. *)
Lemma env_var_names_bound prefix env index :
  (∀ i, i < index → is_Some (env !! env_var_name prefix i)) →
  (index ≤ size env)%nat.
Proof.
  intros Hall.
  pose (names := env_var_name prefix <$> seq 0 index).
  assert (Hnd : NoDup names).
  { apply (@NoDup_fmap_2 _ _ _ (env_var_name_inj prefix)), NoDup_seq. }
  assert (Hsub : list_to_set (C := gset string) names ⊆ dom env).
  { intros k Hk. apply elem_of_list_to_set in Hk.
    apply list_elem_of_fmap in Hk as (i & -> & Hi).
    apply elem_of_seq in Hi. apply elem_of_dom, Hall. lia. }
  apply subseteq_size in Hsub.
  rewrite size_list_to_set, size_dom in Hsub by done.
  unfold names in Hsub. by rewrite length_fmap, length_seq in Hsub.
Qed.

Lemma while_true_break fuel : ∀ prefix env index data_list,
  (∀ i, i < index → is_Some (env !! env_var_name prefix i)) →
  size env < fuel + index →
  ∃ n vals,
    (index ≤ n)%nat
    ∧ env !! env_var_name prefix n = None
    ∧ List.length vals = n - index
    ∧ (∀ i, (index ≤ i < n)%nat →
         env !! env_var_name prefix i = vals !! (i - index))
    ∧ while_true fuel prefix env index data_list = data_list ++ vals.
Proof.
  induction fuel as [|fuel IH]; intros prefix env index data_list Hall Hfuel.
  - apply env_var_names_bound in Hall. lia.
  - simpl. destruct (env !! env_var_name prefix index) as [v|] eqn:Hv.
    + destruct (IH prefix env (S index) (data_list ++ [v]))
        as (n & vals & Hn & Hnone & Hlen & Hvals & Heq).
      { intros i Hi. destruct (decide (i = index)) as [->|Hne].
        - by rewrite Hv.
        - apply Hall. lia. }
      { lia. }
      exists n, (v :: vals). split_and!.
      * lia.
      * done.
      * simpl. lia.
      * intros i Hi. destruct (decide (i = index)) as [->|Hne].
        -- by rewrite Hv, Nat.sub_diag.
        -- rewrite Hvals by lia.
           replace (i - index) with (S (i - S index)) by lia. done.
      * by rewrite Heq, <-(assoc_L (++)).
    + exists index, []. split_and!.
      * done.
      * done.
      * by rewrite Nat.sub_diag.
      * intros i Hi. lia.
      * by rewrite (right_id_L [] (++)).
Qed.

(** [_get_list_from_env] leaves its loop at the [break]: it returns the
    values of the variables [prefix_0], [prefix_1], ... up to the first index
    that is not in the environment. *)
Lemma get_list_from_env_break prefix env :
  ∃ n,
    env !! env_var_name prefix n = None
    ∧ List.length (_get_list_from_env prefix env) = n
    ∧ ∀ i, i < n →
        env !! env_var_name prefix i = _get_list_from_env prefix env !! i.
Proof.
  unfold _get_list_from_env.
  destruct (while_true_break (S (size env)) prefix env 0 [])
    as (n & vals & _ & Hnone & Hlen & Hvals & ->).
  { intros i Hi. lia. }
  { lia. }
  exists n. simpl. split_and!.
  - done.
  - lia.
  - intros i Hi. rewrite Hvals by lia. by rewrite Nat.sub_0_r.
Qed.

Example LOGGING_FILTER_colored_env :
  LOGGING_FILTER colored_env = ["websockets.server"; "websockets.client"].
Proof. vm_compute. reflexivity. Qed.

End get_list_from_env_facts.

(** C7, as stated, fails for [src/logger_config.py]: its console handler
    gets [ColoredFormatter] whatever the environment says, also when
    [LOGGING_COLORED] is not set. *)
Lemma console_colored_by_flag_root_fails :
  ¬ console_colored_by_flag
      (λ _, RootLoggerConfig.LOGGING_CONFIG "logs/2024-01-01.log").
Proof.
  intros H. specialize (H ∅). vm_compute in H. discriminate.
Qed.

(** C7, amended: in [src/python/logger_config.py] the console handler gets
    [ColoredFormatter] exactly when [LOGGING_COLORED] is ["True"] and
    [logging.Formatter] otherwise; in [src/logger_config.py] the console
    handler always gets [ColoredFormatter]; in both modules the file handler
    gets [logging.Formatter]. *)
Theorem sink_formatters LOG_FILE_PATH :
  console_colored_by_flag
    (λ environ, LoggerConfig.LOGGING_CONFIG environ LOG_FILE_PATH)
  ∧ (∀ environ, file_plain (LoggerConfig.LOGGING_CONFIG environ LOG_FILE_PATH))
  ∧ formatter_class_of
      <$> handler_formatter (RootLoggerConfig.LOGGING_CONFIG LOG_FILE_PATH)
            "default"
    = Some ColoredFormatter
  ∧ file_plain (RootLoggerConfig.LOGGING_CONFIG LOG_FILE_PATH)
  ∧ (∀ environ,
       h_class
         <$> dict_get
               (handlers (LoggerConfig.LOGGING_CONFIG environ LOG_FILE_PATH))
               "default"
       = Some "logging.StreamHandler"
       ∧ h_class
           <$> dict_get
                 (handlers (LoggerConfig.LOGGING_CONFIG environ LOG_FILE_PATH))
                 "file"
         = Some "logging.FileHandler")
  ∧ h_class
      <$> dict_get (handlers (RootLoggerConfig.LOGGING_CONFIG LOG_FILE_PATH))
            "default"
    = Some "logging.StreamHandler"
  ∧ h_class
      <$> dict_get (handlers (RootLoggerConfig.LOGGING_CONFIG LOG_FILE_PATH))
            "file"
    = Some "logging.FileHandler".
Proof.
  split; [|split; [|split; [|split; [|split; [|split]]]]].
  - intros environ. reflexivity.
  - intros environ. reflexivity.
  - reflexivity.
  - reflexivity.
  - intros environ. split; reflexivity.
  - reflexivity.
  - reflexivity.
Qed.

Example console_formatter_colored_env :
  formatter_class_of
    <$> handler_formatter (LoggerConfig.LOGGING_CONFIG colored_env "app.log")
          "default"
  = Some ColoredFormatter
  ∧ formatter_class_of
      <$> handler_formatter (LoggerConfig.LOGGING_CONFIG ∅ "app.log")
            "default"
    = Some Formatter.
Proof. split; vm_compute; reflexivity. Qed.

(** A configured handler has the filters its entry names. *)
Lemma configure_handler_filters cfg h hd :
  configure_handler cfg h = Some hd →
  ∃ e, dict_get (handlers cfg) h = Some e
       ∧ mapM (dict_get (filters cfg)) (h_filters e) = Some (hd_filters hd).
Proof.
  unfold configure_handler, handler_filters.
  destruct (dict_get (handlers cfg) h) as [e|]; [|done].
  destruct (_checkLevel _); [done|].
  destruct (mapM _ _) as [fs|] eqn:Hfs; [|done].
  destruct (handler_formatter cfg h); [|done].
  intros [= <-]. by exists e.
Qed.

(** Both handlers of [src/python/logger_config.py] carry the filter, so a
    record of an excluded logger reaches neither the console nor the file,
    whatever its level. *)
Lemma excluded_name_no_output environ LOG_FILE_PATH h hd record :
  configure_handler (LoggerConfig.LOGGING_CONFIG environ LOG_FILE_PATH) h
  = Some hd →
  name record ∈ LoggerConfig.LOGGING_FILTER environ →
  LoggerConfig.handle environ hd record = None.
Proof.
  intros Hcfg Hname.
  assert (Hfilters : hd_filters hd = [LoggingFilter]).
  { apply configure_handler_filters in Hcfg as (e & He & Hfs).
    unfold dict_get in He. simpl in He.
    repeat case_decide; simplify_eq; by injection Hfs. }
  unfold LoggerConfig.handle, Handler_handle. rewrite Hfilters. simpl.
  unfold LoggerConfig.LoggingFilter_filter.
  rewrite bool_decide_eq_true_2 by done.
  by rewrite andb_false_r.
Qed.

(** The same for [src/logger_config.py]. *)
Lemma excluded_name_no_output_root LOG_FILE_PATH h hd record :
  configure_handler (RootLoggerConfig.LOGGING_CONFIG LOG_FILE_PATH) h
  = Some hd →
  name record ∈ RootLoggerConfig.FILTER →
  RootLoggerConfig.handle hd record = None.
Proof.
  intros Hcfg Hname.
  assert (Hfilters : hd_filters hd = [LoggingFilter]).
  { apply configure_handler_filters in Hcfg as (e & He & Hfs).
    unfold dict_get in He. simpl in He.
    repeat case_decide; simplify_eq; by injection Hfs. }
  unfold RootLoggerConfig.handle, Handler_handle. rewrite Hfilters. simpl.
  unfold RootLoggerConfig.LoggingFilter_filter.
  rewrite bool_decide_eq_true_2 by done.
  by rewrite andb_false_r.
Qed.

(** What the two sinks write for a record that passes: the console line is
    wrapped in the colour of its level, the file line is plain. *)
Example sinks_colored_env :
  (hd ← configure_handler (LoggerConfig.LOGGING_CONFIG colored_env "app.log")
         "default";
   LoggerConfig.handle colored_env hd
     {| name := "app"; levelno := ERROR; levelname := "ERROR";
        asctime := "2024-01-01 00:00:00,000"; module := "main";
        funcName := "run"; message := "boom" |})
  = Some (LoggerConfig.ESC +:+ "[91m"
          +:+ "2024-01-01 00:00:00,000 [ERROR] app: boom"
          +:+ LoggerConfig.ESC +:+ "[0m")
  ∧ (hd ← configure_handler (LoggerConfig.LOGGING_CONFIG colored_env "app.log")
           "file";
     LoggerConfig.handle colored_env hd
       {| name := "app"; levelno := ERROR; levelname := "ERROR";
          asctime := "2024-01-01 00:00:00,000"; module := "main";
          funcName := "run"; message := "boom" |})
    = Some "2024-01-01 00:00:00,000 [ERROR] app: boom".
Proof. split; vm_compute; reflexivity. Qed.

(** * Further properties of the code *)

(** ** Names that flattening derives *)

Section derived_names.
Implicit Types (data : tree) (prefix : string) (env : gmap string string).

Lemma is_lower_upper_char (c : ascii) : is_lower (upper_char c) = false.
Proof. by destruct c as [[] [] [] [] [] [] [] []]. Qed.

Lemma upper_char_idemp (c : ascii) : upper_char (upper_char c) = upper_char c.
Proof. by destruct c as [[] [] [] [] [] [] [] []]. Qed.

Lemma no_lower_upper (s : string) : no_lower (upper s) = true.
Proof.
  induction s as [|c s IH]; [done|].
  simpl. by rewrite is_lower_upper_char, IH.
Qed.

Lemma upper_idemp (s : string) : upper (upper s) = upper s.
Proof.
  induction s as [|c s IH]; [done|].
  simpl. by rewrite upper_char_idemp, IH.
Qed.

Lemma no_lower_app (s1 s2 : string) :
  no_lower (s1 +:+ s2) = no_lower s1 && no_lower s2.
Proof.
  induction s1 as [|c s1 IH]; [done|].
  change (no_lower (String c (s1 +:+ s2))
          = no_lower (String c s1) && no_lower s2).
  simpl. rewrite IH. by rewrite andb_assoc.
Qed.

Lemma no_lower_pretty_N_go (x : N) :
  ∀ s, no_lower s = true → no_lower (pretty_N_go x s) = true.
Proof.
  induction (N.lt_wf_0 x) as [x _ IH]; intros s Hs.
  destruct (decide (x = 0)%N) as [->|Hx].
  - by rewrite pretty_N_go_0.
  - rewrite pretty_N_go_step by lia.
    apply IH.
    + apply N.div_lt; lia.
    + simpl. rewrite Hs. unfold pretty_N_char.
      by repeat case_match.
Qed.

Lemma no_lower_pretty_nat (n : nat) : no_lower (pretty n) = true.
Proof.
  unfold pretty, pretty_nat, pretty, pretty_N.
  case_decide; [done|]. by apply no_lower_pretty_N_go.
Qed.

Lemma no_lower_new_prefix prefix part :
  no_lower prefix = true → no_lower part = true →
  no_lower (new_prefix prefix part) = true.
Proof.
  intros Hp Hpart. unfold new_prefix. destruct (truthy prefix); [|done].
  rewrite !no_lower_app, Hp, Hpart. done.
Qed.

Lemma no_lower_derive path :
  ∀ prefix, no_lower prefix = true → no_lower (derive prefix path) = true.
Proof.
  induction path as [|s path IH]; intros prefix Hp; [done|].
  apply IH, no_lower_new_prefix; [done|].
  destruct s; [apply no_lower_upper | apply no_lower_pretty_nat].
Qed.

(** X1: every name [set_env_vars] derives under a prefix without lower-case
    letters, the empty prefix of the root call in particular, is free of
    ASCII lower-case letters. *)
Theorem flat_keys_no_lower data prefix k :
  no_lower prefix = true →
  k ∈ flat_keys data prefix →
  no_lower k = true.
Proof.
  intros Hp Hk. unfold flat_keys in Hk.
  rewrite leaves_leaf_paths_from, <-list_fmap_compose in Hk.
  apply list_elem_of_fmap in Hk as (pv & -> & _).
  by apply no_lower_derive.
Qed.

Lemma flat_keys_no_lower_witness : no_lower "LOGGING_FILTER_1" = true.
Proof.
  apply (flat_keys_no_lower sample "" "LOGGING_FILTER_1").
  - reflexivity.
  - vm_compute. do 2 right. left.
Defined.

End derived_names.

Section flattening_edges.
Implicit Types (data : tree) (prefix : string) (env : gmap string string).



End flattening_edges.

(** ** What [load_config] returns and what it leaves alone *)

Section load_config_more.
Variable safe_load : string → yaml_result.
Variable files : gmap string string.
Implicit Types (st : state) (path stream lvl : string) (data : tree).

(** X5: [load_config] touches no variable but [FIRST_RUN] and the names
    derived from the parsed config: every other variable keeps its value on
    every path through the function. *)
Theorem load_config_frame path st k :
  k ≠ "FIRST_RUN" →
  (∀ stream data,
     files !! path = Some stream → safe_load stream = Loaded data →
     k ∉ flat_keys data "") →
  os_environ (load_config safe_load files path st).2 !! k
  = os_environ st !! k.
Proof.
  intros Hk Hflat.
  destruct (files !! path) as [stream|] eqn:Hfile.
  2:{ unfold load_config. rewrite Hfile. simpl. by apply lookup_insert_ne. }
  destruct (safe_load stream) as [exc|data] eqn:Hparse.
  { unfold load_config. rewrite Hfile, Hparse. simpl.
    by apply lookup_insert_ne. }
  rewrite (load_config_Loaded safe_load files path stream data st
             Hfile Hparse). cbv zeta.
  assert (Henv : set_env_vars data ""
                   (<["FIRST_RUN" := "False"]> (os_environ st)) !! k
                 = os_environ st !! k).
  { rewrite set_env_vars_store, store_all_lookup_notin.
    - by apply lookup_insert_ne.
    - by apply (Hflat stream data). }
  destruct (set_env_vars _ _ _ !! "LOGGING_LEVEL") as [lvl|]; [|done].
  destruct (truthy lvl); [|done].
  by destruct (dict_get _nameToLevel lvl).
Qed.

(** X6: [load_config] only adds to what the logger was told, starting with
    ["Attempting to load config"], and whenever it returns [False] the level
    of the logger is the one it had. *)
Theorem load_config_logger path st :
  (∃ more,
     calls (logger (load_config safe_load files path st).2)
     = calls (logger st) ++ ("INFO", "Attempting to load config") :: more)
  ∧ ((load_config safe_load files path st).1 = false →
     level (logger (load_config safe_load files path st).2)
     = level (logger st)).
Proof.
  destruct (files !! path) as [stream|] eqn:Hfile.
  2:{ unfold load_config. rewrite Hfile. simpl. split; [|done].
      eexists. by rewrite <-(assoc_L (++)). }
  destruct (safe_load stream) as [exc|data] eqn:Hparse.
  { unfold load_config. rewrite Hfile, Hparse. simpl. split; [|done].
    eexists. by rewrite <-!(assoc_L (++)). }
  rewrite (load_config_Loaded safe_load files path stream data st
             Hfile Hparse). cbv zeta.
  destruct (set_env_vars _ _ _ !! "LOGGING_LEVEL") as [lvl|].
  2:{ simpl. split; [|done]. eexists. by rewrite <-(assoc_L (++)). }
  destruct (truthy lvl).
  2:{ simpl. split; [|done]. eexists. by rewrite <-(assoc_L (++)). }
  destruct (dict_get _nameToLevel lvl); simpl.
  - split; [|done]. eexists. by rewrite <-(assoc_L (++)).
  - split; [|done]. eexists. by rewrite <-!(assoc_L (++)).
Qed.

End load_config_more.

Lemma load_config_frame_witness :
  os_environ
    (load_config (λ _, Loaded sample) {[ "config.yaml" := "" ]} "config.yaml"
       {| os_environ := {[ "HOME" := "/root" ]};
          logger := {| level := NOTSET; calls := [] |} |}).2 !! "HOME"
  = Some "/root".
Proof.
  rewrite (load_config_frame (λ _, Loaded sample) {[ "config.yaml" := "" ]}
             "config.yaml" _ "HOME").
  - reflexivity.
  - discriminate.
  - intros stream data _ [= <-]. vm_compute. intros Hin.
    repeat (apply elem_of_cons in Hin as [Hin|Hin]; [discriminate|]).
    by apply elem_of_nil in Hin.
Defined.

Lemma load_config_logger_witness :
  level
    (logger
       (load_config (λ _, Loaded bad_level) {[ "config.yaml" := "" ]}
          "config.yaml" fresh).2)
  = NOTSET.
Proof.
  apply (proj2 (load_config_logger (λ _, Loaded bad_level)
                  {[ "config.yaml" := "" ]} "config.yaml" fresh)).
  reflexivity.
Defined.

(** ** Reading a list back from the environment *)

Section get_list_from_env_more.
Import LoggerConfig.
Implicit Types (prefix : string) (env : gmap string string).

(** X7: [_get_list_from_env(prefix)] returns the values of [prefix_0],
    [prefix_1], ... in order, and stops at the first index whose variable is
    not set: a gap ends the list, whatever is set beyond it. *)
Theorem get_list_from_env_run prefix env :
  let data_list := _get_list_from_env prefix env in
  env !! env_var_name prefix (List.length data_list) = None
  ∧ ∀ i, (i < List.length data_list)%nat →
      is_Some (data_list !! i)
      ∧ env !! env_var_name prefix i = data_list !! i.
Proof.
  cbv zeta.
  destruct (get_list_from_env_break prefix env) as (n & Hnone & Hlen & Hvals).
  rewrite Hlen. split; [done|]. intros i Hi. split.
  - apply lookup_lt_is_Some. by rewrite Hlen.
  - by apply Hvals.
Qed.

Lemma get_list_from_env_run_witness :
  _get_list_from_env "LOGGING_FILTER"
    {[ "LOGGING_FILTER_0" := "a"; "LOGGING_FILTER_2" := "c" ]} !! 0%nat
  = Some "a".
Proof.
  pose proof (get_list_from_env_run "LOGGING_FILTER"
                {[ "LOGGING_FILTER_0" := "a"; "LOGGING_FILTER_2" := "c" ]})
    as H.
  cbv zeta in H. destruct H as [_ H].
  destruct (H 0%nat) as [_ <-].
  - vm_compute. lia.
  - reflexivity.
Defined.





End get_list_from_env_more.

(** ** The logging configuration and the environment *)

Section logging_config_more.
Import LoggerConfig.
Implicit Types (env : gmap string string) (record : LogRecord).

(** The handlers of [src/python/logger_config.py], as [dictConfig] builds
    them: both at the level [log_level] names, both with the filter. *)
Lemma configure_handler_default env path :
  configure_handler (LOGGING_CONFIG env path) "default"
  = match dict_get _nameToLevel (log_level env) with
    | Some n =>
        Some {| hd_level := n; hd_filters := [LoggingFilter];
                hd_formatter :=
                  {| factory :=
                       Some (if decide (env !! "LOGGING_COLORED" = Some "True")
                             then ColoredFormatter else Formatter);
                     format := log_format env |} |}
    | None => None
    end.
Proof.
  unfold configure_handler, _checkLevel. simpl.
  change (dict_get (handlers (LOGGING_CONFIG env path)) "default")
    with (Some {| h_level := log_level env; h_formatter := "colored";
                  h_class := "logging.StreamHandler"; h_filename := None;
                  h_mode := None; h_filters := ["websockets_filter"] |}).
  simpl. by destruct (dict_get _nameToLevel (log_level env)).
Qed.

Lemma configure_handler_file env path :
  configure_handler (LOGGING_CONFIG env path) "file"
  = match dict_get _nameToLevel (log_level env) with
    | Some n =>
        Some {| hd_level := n; hd_filters := [LoggingFilter];
                hd_formatter :=
                  {| factory := None; format := log_format env |} |}
    | None => None
    end.
Proof.
  unfold configure_handler, _checkLevel. simpl.
  change (dict_get (handlers (LOGGING_CONFIG env path)) "file")
    with (Some {| h_level := log_level env; h_formatter := "standard";
                  h_class := "logging.FileHandler"; h_filename := Some path;
                  h_mode := Some "a"; h_filters := ["websockets_filter"] |}).
  simpl. by destruct (dict_get _nameToLevel (log_level env)).
Qed.

(** X10: a non-empty [LOGGING_LEVEL] that [logging] does not know, such as a
    failed [load_config] leaves behind, makes the import of
    [src/python/logger_config.py] raise: [dictConfig] cannot build the
    console handler. *)
Theorem import_module_unknown_level env module_root today now fs m lvl :
  env !! "LOGGING_LEVEL" = Some lvl →
  lvl ≠ "" →
  dict_get _nameToLevel lvl = None →
  import_module env module_root today now fs m = None.
Proof.
  intros Hlvl Hne Hbad. unfold import_module.
  destruct (ensure_log_directory_exists _ _ _ _) as [fs'|]; [|done].
  unfold Os.dictConfig.
  change (handlers (LOGGING_CONFIG env (LOG_FILE_PATH env module_root today)))
    with [("default",
           {| h_level := log_level env; h_formatter := "colored";
              h_class := "logging.StreamHandler"; h_filename := None;
              h_mode := None; h_filters := ["websockets_filter"] |});
          ("file",
           {| h_level := log_level env; h_formatter := "standard";
              h_class := "logging.FileHandler";
              h_filename := Some (LOG_FILE_PATH env module_root today);
              h_mode := Some "a"; h_filters := ["websockets_filter"] |})].
  simpl Os.build_handlers.
  rewrite configure_handler_default.
  unfold log_level. rewrite Hlvl, (truthy_nonempty lvl Hne), Hbad. done.
Qed.

Lemma import_module_unknown_level_witness :
  import_module
    (os_environ
       (load_config (λ _, Loaded bad_level) {[ "config.yaml" := "" ]}
          "config.yaml" fresh).2)
    "/opt/app" "2024-01-01" "2024-01-01 08:00:00" ∅
    {| root := {| level := WARNING; calls := [] |}; loggerDict := ∅ |}
  = None.
Proof.
  apply (import_module_unknown_level _ _ _ _ _ _ "verbose").
  - vm_compute. reflexivity.
  - discriminate.
  - vm_compute. reflexivity.
Defined.

End logging_config_more.

Section sinks_more.
Import LoggerConfig.
Implicit Types (env : gmap string string) (record : LogRecord).

(** X11: the console mirrors the file.  For every record the two handlers
    of [src/python/logger_config.py] either both write or both stay silent,
    and the console line is the file line, wrapped in the colour of the
    record's level and the reset code when [LOGGING_COLORED] is ["True"],
    and as it is otherwise. *)
Theorem console_mirrors_file env path console file record :
  configure_handler (LOGGING_CONFIG env path) "default" = Some console →
  configure_handler (LOGGING_CONFIG env path) "file" = Some file →
  handle env console record
  = (λ line,
       if decide (env !! "LOGGING_COLORED" = Some "True")
       then default COLORS_RESET (dict_get COLORS (levelname record))
            +:+ line +:+ COLORS_RESET
       else line)
      <$> handle env file record.
Proof.
  rewrite configure_handler_default, configure_handler_file.
  destruct (dict_get _nameToLevel (log_level env)) as [n|]; [|done].
  intros [= <-] [= <-].
  unfold handle, Handler_handle. simpl.
  destruct ((n <=? levelno record)%nat
            && (LoggingFilter_filter env record && true)); [|done].
  simpl. unfold format_record, formatter_class_of. simpl.
  by case_decide.
Qed.

Lemma console_mirrors_file_witness :
  handle colored_env
    {| hd_level := INFO; hd_filters := [LoggingFilter];
       hd_formatter :=
         {| factory := Some ColoredFormatter;
            format := log_format colored_env |} |}
    (noisy ERROR "ERROR")
  = None.
Proof.
  rewrite (console_mirrors_file colored_env "app.log" _
             {| hd_level := INFO; hd_filters := [LoggingFilter];
                hd_formatter :=
                  {| factory := None; format := log_format colored_env |} |}
             (noisy ERROR "ERROR")).
  - vm_compute. reflexivity.
  - vm_compute. reflexivity.
  - vm_compute. reflexivity.
Defined.

End sinks_more.

(** ** The log directory and the log file *)

Section log_files.
Import Os.
Implicit Types (fs : gmap string node) (dir file banner : string).

Lemma string_app_nil_r (s : string) : s +:+ "" = s.
Proof.
  induction s as [|c s IH]; [done|].
  change (String c (s +:+ "") = String c s). by rewrite IH.
Qed.

Lemma path_exists_true path fs : path_exists path fs = true ↔ is_Some (fs !! path).
Proof. unfold path_exists. apply bool_decide_eq_true. Qed.

Lemma path_exists_false path fs : path_exists path fs = false ↔ fs !! path = None.
Proof.
  unfold path_exists. rewrite bool_decide_eq_false.
  by rewrite eq_None_not_Some.
Qed.

(** What the shared steps do to the file system. *)
Lemma prepare_log_Some dir file banner fs fs' :
  prepare_log dir file banner fs = Some fs' →
  (fs !! dir = None ∧ fs' = <[dir := Dir]> fs)
  ∨ (is_Some (fs !! dir)
     ∧ ∃ content, fs !! file = Some (File content)
                  ∧ fs' = <[file := File (content +:+ banner)]> fs)
  ∨ (is_Some (fs !! dir) ∧ fs !! file = None ∧ fs' = fs).
Proof.
  unfold prepare_log.
  destruct (path_exists dir fs) eqn:Hdir; simpl.
  - apply path_exists_true in Hdir.
    destruct (path_exists file fs) eqn:Hfile.
    + unfold append_text.
      apply path_exists_true in Hfile as [[|content] Hnode];
        rewrite Hnode; [done|].
      intros [= <-]. right. left. eauto.
    + apply path_exists_false in Hfile. intros [= <-]. by right; right.
  - apply path_exists_false in Hdir. intros [= <-]. by left.
Qed.

Lemma prepare_log_None dir file banner fs :
  prepare_log dir file banner fs = None
  ↔ is_Some (fs !! dir) ∧ fs !! file = Some Dir.
Proof.
  unfold prepare_log, append_text. split.
  - destruct (path_exists dir fs) eqn:Hdir; simpl; [|done].
    apply path_exists_true in Hdir.
    destruct (path_exists file fs) eqn:Hfile; [|done].
    by destruct (fs !! file) as [[|content]|].
  - intros [Hdir Hfile].
    apply path_exists_true in Hdir. rewrite Hdir. simpl.
    unfold path_exists. rewrite Hfile, bool_decide_eq_true_2 by eauto. done.
Qed.

(** The shared steps never shorten or remove a file. *)
Lemma prepare_log_keeps dir file banner fs fs' path content :
  prepare_log dir file banner fs = Some fs' →
  fs !! path = Some (File content) →
  ∃ more, fs' !! path = Some (File (content +:+ more))
          ∧ (path ≠ file → more = "").
Proof.
  intros Hprep Hpath.
  apply prepare_log_Some in Hprep
    as [[Hdir ->]|[(Hdir & c & Hfile & ->)|(Hdir & Hfile & ->)]].
  - exists "". rewrite string_app_nil_r. split; [|done].
    rewrite lookup_insert_ne; [done|]. intros ->. by rewrite Hdir in Hpath.
  - destruct (decide (path = file)) as [->|Hne].
    + exists banner. rewrite lookup_insert_eq. by simplify_eq.
    + exists "". rewrite string_app_nil_r, lookup_insert_ne by done. done.
  - exists "". by rewrite string_app_nil_r.
Qed.

End log_files.

Section log_files_python.
Import Os.
Implicit Types (fs : gmap string node).

End log_files_python.

Section log_files_root.
Import Os.
Implicit Types (fs : gmap string node) (today now : string).

Lemma string_length_app (s1 s2 : string) :
  String.length (s1 +:+ s2) = (String.length s1 + String.length s2)%nat.
Proof.
  induction s1 as [|c s1 IH]; [done|].
  change (S (String.length (s1 +:+ s2))
          = S (String.length s1 + String.length s2)).
  by rewrite IH.
Qed.

Lemma string_app_inj_r (t s1 s2 : string) : s1 +:+ t = s2 +:+ t → s1 = s2.
Proof.
  revert s2. induction s1 as [|c1 s1 IH]; intros [|c2 s2] Heq.
  - done.
  - apply (f_equal String.length) in Heq.
    rewrite !string_length_app in Heq. simpl in Heq. lia.
  - apply (f_equal String.length) in Heq.
    rewrite !string_length_app in Heq. simpl in Heq. lia.
  - change (String c1 (s1 +:+ t) = String c2 (s2 +:+ t)) in Heq.
    injection Heq as -> Heq. by rewrite (IH s2 Heq).
Qed.

(** The path of the log file under [logs]. *)
Lemma logs_path_join today :
  path_join "logs" (today +:+ ".log")
  = if starts_with_sep today then today +:+ ".log"
    else "logs/" +:+ today +:+ ".log".
Proof. by destruct today as [|c today]; [|unfold path_join; simpl; case_bool_decide]. Qed.

Lemma logs_path_join_ne_logs today :
  path_join "logs" (today +:+ ".log") ≠ "logs".
Proof.
  rewrite logs_path_join. intros Heq.
  apply (f_equal String.length) in Heq.
  destruct (starts_with_sep today) eqn:Hsep.
  - destruct today as [|c today]; [done|].
    simpl in Hsep. apply bool_decide_eq_true in Hsep as ->.
    change (String "/" today +:+ ".log") with (String "/" (today +:+ ".log"))
      in Heq.
    apply (f_equal (λ n, n)) in Heq. simpl in Heq.
    rewrite string_length_app in Heq. simpl in Heq.
    destruct today as [|c1 [|c2 [|c3 today]]]; simpl in Heq; lia.
  - rewrite !string_length_app in Heq. simpl in Heq. lia.
Qed.

Lemma logs_path_join_inj today1 today2 :
  path_join "logs" (today1 +:+ ".log") = path_join "logs" (today2 +:+ ".log") →
  today1 = today2.
Proof.
  rewrite !logs_path_join.
  destruct (starts_with_sep today1) eqn:Hsep1,
           (starts_with_sep today2) eqn:Hsep2; intros Heq.
  - by apply string_app_inj_r in Heq.
  - destruct today1 as [|c today1]; [done|].
    simpl in Hsep1. apply bool_decide_eq_true in Hsep1 as ->. done.
  - destruct today2 as [|c today2]; [done|].
    simpl in Hsep2. apply bool_decide_eq_true in Hsep2 as ->. done.
  - apply (inj (String.app "logs/")) in Heq.
    by apply string_app_inj_r in Heq.
Qed.

End log_files_root.

Section starts.
Import Os.
Implicit Types (fs : gmap string node) (today now : string) (m : manager).

Lemma FileHandler_open_Some path fs fs' :
  FileHandler_open path fs = Some fs' →
  (∃ content, fs !! path = Some (File content) ∧ fs' = fs)
  ∨ (fs !! path = None ∧ fs' = <[path := File ""]> fs).
Proof.
  unfold FileHandler_open.
  destruct (fs !! path) as [[|content]|]; [done| |].
  - intros [= <-]. left. eauto.
  - intros [= <-]. by right.
Qed.

Lemma FileHandler_open_None path fs :
  FileHandler_open path fs = None ↔ fs !! path = Some Dir.
Proof.
  unfold FileHandler_open.
  by destruct (fs !! path) as [[|content]|].
Qed.

(** [dictConfig] of [src/logger_config.py]: the file handler opens the log
    file, the root logger gets the level [DEBUG]. *)
Lemma root_dictConfig path fs m :
  dictConfig (RootLoggerConfig.LOGGING_CONFIG path) fs m
  = match FileHandler_open path fs with
    | Some fs' =>
        Some (fs', {| root := {| level := DEBUG; calls := calls (root m) |};
                      loggerDict := loggerDict m |})
    | None => None
    end.
Proof.
  unfold dictConfig.
  change (handlers (RootLoggerConfig.LOGGING_CONFIG path))
    with [("default",
           {| h_level := "DEBUG"; h_formatter := "colored";
              h_class := "logging.StreamHandler"; h_filename := None;
              h_mode := None; h_filters := ["websockets_filter"] |});
          ("file",
           {| h_level := "DEBUG"; h_formatter := "standard";
              h_class := "logging.FileHandler"; h_filename := Some path;
              h_mode := Some "a"; h_filters := ["websockets_filter"] |})].
  simpl build_handlers.
  change (configure_handler (RootLoggerConfig.LOGGING_CONFIG path) "default")
    with (Some {| hd_level := DEBUG; hd_filters := [LoggingFilter];
                  hd_formatter :=
                    {| factory := Some ColoredFormatter;
                       format := RootLoggerConfig.log_format |} |}).
  change (configure_handler (RootLoggerConfig.LOGGING_CONFIG path) "file")
    with (Some {| hd_level := DEBUG; hd_filters := [LoggingFilter];
                  hd_formatter :=
                    {| factory := None;
                       format := RootLoggerConfig.log_format |} |}).
  cbv iota beta.
  by destruct (FileHandler_open path fs).
Qed.

(** X14: a second start of [src/logger_config.py] on the same day appends
    to the log file of the first.  After any import that returned, the log
    file exists; whatever is logged to it then, the next import on that day
    returns as well and leaves the earlier content, the logged lines and,
    after them, one banner line with the new time. *)
Theorem root_import_twice today now1 now2 lines fs m fs1 m1 :
  RootLoggerConfig.import_module today now1 fs m = Some (fs1, m1) →
  ∃ content fs2 fs3 m3,
    fs1 !! RootLoggerConfig.LOG_FILE_PATH today = Some (File content)
    ∧ append_text (RootLoggerConfig.LOG_FILE_PATH today) lines fs1 = Some fs2
    ∧ RootLoggerConfig.import_module today now2 fs2 m1 = Some (fs3, m3)
    ∧ fs3 !! RootLoggerConfig.LOG_FILE_PATH today
      = Some (File (content +:+ lines
                    +:+ "---------- " +:+ now2 +:+ " ----------" +:+ LF)).
Proof.
  unfold RootLoggerConfig.import_module.
  set (file := RootLoggerConfig.LOG_FILE_PATH today).
  assert (Hne : file ≠ "logs") by apply logs_path_join_ne_logs.
  destruct (RootLoggerConfig.ensure_log_directory_exists today now1 fs)
    as [fsa|] eqn:Hens; [|done].
  rewrite root_dictConfig.
  destruct (FileHandler_open file fsa) as [fsb|] eqn:Hopen; [|done].
  intros [= <- <-].
  assert (Hdir : is_Some (fsa !! "logs")).
  { change (prepare_log "logs" file
              ("---------- " +:+ now1 +:+ " ----------" +:+ LF) fs = Some fsa)
      in Hens.
    apply prepare_log_Some in Hens
      as [[_ ->]|[(Hdir & c & _ & ->)|(Hdir & _ & ->)]].
    - rewrite lookup_insert_eq. by eexists.
    - by rewrite lookup_insert_ne.
    - done. }
  assert (∃ content, fsb !! file = Some (File content)
                     ∧ is_Some (fsb !! "logs")) as (content & Hfile & Hdirb).
  { apply FileHandler_open_Some in Hopen as [(c & Hc & ->)|[_ ->]].
    - by exists c.
    - exists "". rewrite lookup_insert_eq, lookup_insert_ne by done. done. }
  exists content, (<[file := File (content +:+ lines)]> fsb).
  eexists _, _. split; [done|]. split.
  { unfold append_text. by rewrite Hfile. }
  unfold RootLoggerConfig.ensure_log_directory_exists.
  fold file. change RootLoggerConfig.LOG_DIRECTORY with "logs".
  unfold path_exists.
  rewrite (bool_decide_eq_true_2 (is_Some (_ !! "logs"))).
  2:{ by rewrite lookup_insert_ne. }
  rewrite (bool_decide_eq_true_2 (is_Some (_ !! file))).
  2:{ rewrite lookup_insert_eq. by eexists. }
  simpl. unfold append_text. rewrite lookup_insert_eq.
  rewrite root_dictConfig. unfold FileHandler_open.
  rewrite lookup_insert_eq. split; [reflexivity|].
  rewrite lookup_insert_eq. by rewrite string_app_assoc.
Qed.

Lemma root_import_twice_witness :
  ∃ content fs2 fs3 m3,
    ({[ "logs" := Dir; "logs/2024-01-01.log" := File "" ]}
       : gmap string node) !! RootLoggerConfig.LOG_FILE_PATH "2024-01-01"
    = Some (File content)
    ∧ append_text (RootLoggerConfig.LOG_FILE_PATH "2024-01-01") "line"
        {[ "logs" := Dir; "logs/2024-01-01.log" := File "" ]} = Some fs2
    ∧ RootLoggerConfig.import_module "2024-01-01" "2024-01-01 09:00:00" fs2
        {| root := {| level := DEBUG; calls := [] |}; loggerDict := ∅ |}
      = Some (fs3, m3)
    ∧ fs3 !! RootLoggerConfig.LOG_FILE_PATH "2024-01-01"
      = Some (File (content +:+ "line"
                    +:+ "---------- " +:+ "2024-01-01 09:00:00"
                    +:+ " ----------" +:+ LF)).
Proof.
  apply (root_import_twice "2024-01-01" "2024-01-01 08:00:00"
           "2024-01-01 09:00:00" "line" ∅
           {| root := {| level := WARNING; calls := [] |}; loggerDict := ∅ |}).
  vm_compute. reflexivity.
Defined.

End starts.

Section new_day.
Import Os.
Implicit Types (fs : gmap string node) (today now : string) (m : manager).

(** X15: a start of [src/logger_config.py] on a new day begins a new file:
    the log file of every other day is left as it is, and a log file that
    did not exist yet is created empty, without a banner. *)
Theorem root_import_new_day today earlier now fs m fs' m' :
  earlier ≠ today →
  RootLoggerConfig.import_module today now fs m = Some (fs', m') →
  fs' !! RootLoggerConfig.LOG_FILE_PATH earlier
  = fs !! RootLoggerConfig.LOG_FILE_PATH earlier
  ∧ (fs !! RootLoggerConfig.LOG_FILE_PATH today = None →
     fs' !! RootLoggerConfig.LOG_FILE_PATH today = Some (File "")).
Proof.
  intros Hday. unfold RootLoggerConfig.import_module.
  set (file := RootLoggerConfig.LOG_FILE_PATH today).
  set (old := RootLoggerConfig.LOG_FILE_PATH earlier).
  assert (Hne : file ≠ "logs") by apply logs_path_join_ne_logs.
  assert (Hne' : old ≠ "logs") by apply logs_path_join_ne_logs.
  assert (Hfiles : old ≠ file).
  { intros Heq. by apply logs_path_join_inj in Heq. }
  destruct (RootLoggerConfig.ensure_log_directory_exists today now fs)
    as [fsa|] eqn:Hens; [|done].
  rewrite root_dictConfig.
  destruct (FileHandler_open file fsa) as [fsb|] eqn:Hopen; [|done].
  intros [= <- <-].
  change (prepare_log "logs" file
            ("---------- " +:+ now +:+ " ----------" +:+ LF) fs = Some fsa)
    in Hens.
  apply prepare_log_Some in Hens
    as [[_ ->]|[(_ & c & Hc & ->)|(_ & _ & ->)]];
    apply FileHandler_open_Some in Hopen as [(c' & Hc' & ->)|[Hnone ->]].
  - rewrite lookup_insert_ne in Hc' by done.
    rewrite lookup_insert_ne by done. split; [done|].
    intros Hfile. by rewrite Hfile in Hc'.
  - rewrite !lookup_insert_ne by done. split; [done|].
    intros _. apply lookup_insert_eq.
  - rewrite lookup_insert_ne by done. split; [done|].
    intros Hfile. by rewrite Hfile in Hc.
  - by rewrite lookup_insert_eq in Hnone.
  - split; [done|]. intros Hfile. by rewrite Hfile in Hc'.
  - rewrite lookup_insert_ne by done. split; [done|].
    intros _. apply lookup_insert_eq.
Qed.

Lemma root_import_new_day_witness :
  ∃ fs' m',
    RootLoggerConfig.import_module "2024-01-02" "2024-01-02 08:00:00"
      {[ "logs" := Dir; "logs/2024-01-01.log" := File "yesterday" ]}
      {| root := {| level := WARNING; calls := [] |}; loggerDict := ∅ |}
    = Some (fs', m')
    ∧ fs' !! RootLoggerConfig.LOG_FILE_PATH "2024-01-01"
      = Some (File "yesterday")
    ∧ fs' !! RootLoggerConfig.LOG_FILE_PATH "2024-01-02" = Some (File "").
Proof.
  eexists _, _. split; [vm_compute; reflexivity|].
  edestruct (root_import_new_day "2024-01-02" "2024-01-01"
               "2024-01-02 08:00:00"
               {[ "logs" := Dir; "logs/2024-01-01.log" := File "yesterday" ]}
               {| root := {| level := WARNING; calls := [] |};
                  loggerDict := ∅ |}) as [Hold Hnew].
  - discriminate.
  - vm_compute. reflexivity.
  - split.
    + rewrite Hold. reflexivity.
    + apply Hnew. reflexivity.
Defined.

(** [dictConfig] of [steup_temp_logger]: the file handler opens the log
    file, the root logger gets the level [INFO]. *)
Lemma temp_dictConfig path fs m :
  dictConfig (Setup.LOGGING_CONFIG path) fs m
  = match FileHandler_open path fs with
    | Some fs' =>
        Some (fs', {| root := {| level := INFO; calls := calls (root m) |};
                      loggerDict := loggerDict m |})
    | None => None
    end.
Proof.
  unfold dictConfig.
  change (handlers (Setup.LOGGING_CONFIG path))
    with [("default",
           {| h_level := "INFO"; h_formatter := "colored";
              h_class := "logging.StreamHandler"; h_filename := None;
              h_mode := None; h_filters := [] |});
          ("file",
           {| h_level := "INFO"; h_formatter := "standard";
              h_class := "logging.FileHandler"; h_filename := Some path;
              h_mode := Some "a"; h_filters := [] |})].
  simpl build_handlers.
  change (configure_handler (Setup.LOGGING_CONFIG path) "default")
    with (Some {| hd_level := INFO; hd_filters := [];
                  hd_formatter :=
                    {| factory := None; format := temp_log_format |} |}).
  change (configure_handler (Setup.LOGGING_CONFIG path) "file")
    with (Some {| hd_level := INFO; hd_filters := [];
                  hd_formatter :=
                    {| factory := None; format := temp_log_format |} |}).
  cbv iota beta.
  by destruct (FileHandler_open path fs).
Qed.

(** What [steup_temp_logger] does, step by step. *)
Lemma steup_temp_logger_unfold today now fs m :
  steup_temp_logger today now fs m
  = match prepare_log "logs" (Setup.LOG_FILE_PATH today)
            ("---------- " +:+ now +:+ " ----------" +:+ LF
             +:+ "---------- SETUP ----------" +:+ LF) fs with
    | None => None
    | Some fsa =>
        match FileHandler_open (Setup.LOG_FILE_PATH today) fsa with
        | None => None
        | Some fsb =>
            Some (deref (NamedLogger "SETUP") m, fsb,
                  {| root := {| level := INFO; calls := calls (root m) |};
                     loggerDict := loggerDict m |})
        end
    end.
Proof.
  unfold steup_temp_logger, prepare_log.
  destruct (if negb (path_exists "logs" fs) then _ else _) as [fsa|]; [|done].
  rewrite temp_dictConfig.
  by destruct (FileHandler_open _ fsa).
Qed.

End new_day.

(** ** The setup *)

Section setup_facts.
Import Os.
Variable sys : sys_info.
Variable safe_load : string → yaml_result.
Implicit Types (today now : string) (w : process).

Lemma last_char_ne (c1 c2 : ascii) (s t : string) :
  c1 ≠ c2 → s +:+ String c1 "" ≠ t +:+ String c2 "".
Proof.
  intros Hc. revert t. induction s as [|a s IH]; intros [|b t] Heq.
  - by injection Heq.
  - change (String c1 "" = String b (t +:+ String c2 "")) in Heq.
    injection Heq as _ Heq. by destruct t.
  - change (String a (s +:+ String c1 "") = String c2 "") in Heq.
    injection Heq as _ Heq. by destruct s.
  - change (String a (s +:+ String c1 "") = String b (t +:+ String c2 ""))
      in Heq.
    injection Heq as _ Heq. by apply IH in Heq.
Qed.

(** The config file is neither the directory [logs] nor a log file. *)
Lemma config_path_ne_logs exe : exe +:+ "/config.yaml" ≠ "logs".
Proof.
  change (exe +:+ "/config.yaml" ≠ "log" +:+ "s").
  replace (exe +:+ "/config.yaml") with ((exe +:+ "/config.yam") +:+ "l")
    by by rewrite string_app_assoc.
  by apply last_char_ne.
Qed.

Lemma config_path_ne_log_file exe today :
  exe +:+ "/config.yaml" ≠ Setup.LOG_FILE_PATH today.
Proof.
  unfold Setup.LOG_FILE_PATH. rewrite logs_path_join.
  replace (exe +:+ "/config.yaml") with ((exe +:+ "/config.yam") +:+ "l")
    by by rewrite string_app_assoc.
  destruct (starts_with_sep today).
  - replace (today +:+ ".log") with ((today +:+ ".lo") +:+ "g")
      by by rewrite string_app_assoc.
    by apply last_char_ne.
  - replace ("logs/" +:+ today +:+ ".log")
      with (("logs/" +:+ today +:+ ".lo") +:+ "g")
      by by rewrite !string_app_assoc.
    by apply last_char_ne.
Qed.

Lemma load_config_files_ext files1 files2 path st :
  files1 !! path = files2 !! path →
  load_config safe_load files1 path st = load_config safe_load files2 path st.
Proof. intros Heq. unfold load_config. by rewrite Heq. Qed.

(** [steup_temp_logger] leaves the config file as it is. *)
Lemma steup_temp_logger_config today now fs m lg fs' m' exe :
  steup_temp_logger today now fs m = Some (lg, fs', m') →
  lg = deref (NamedLogger "SETUP") m
  ∧ m' = {| root := {| level := INFO; calls := calls (root m) |};
            loggerDict := loggerDict m |}
  ∧ regular_files fs' !! (exe +:+ "/config.yaml")
    = regular_files fs !! (exe +:+ "/config.yaml").
Proof.
  rewrite steup_temp_logger_unfold.
  destruct (prepare_log _ _ _ fs) as [fsa|] eqn:Hprep; [|done].
  destruct (FileHandler_open _ fsa) as [fsb|] eqn:Hopen; [|done].
  intros [= <- <- <-]. split; [done|]. split; [done|].
  unfold regular_files. rewrite !lookup_omap. f_equal.
  pose proof (config_path_ne_logs exe) as H1.
  pose proof (config_path_ne_log_file exe today) as H2.
  apply FileHandler_open_Some in Hopen as [(c & _ & ->)|[_ ->]];
    apply prepare_log_Some in Hprep
      as [[_ ->]|[(_ & c' & _ & ->)|(_ & _ & ->)]];
    by rewrite ?lookup_insert_ne.
Qed.

(** The environment [setup] leaves, variable by variable. *)
Lemma setup_environ today now w w' k :
  setup sys safe_load today now w = Some w' →
  p_environ w' !! k
  = if load_failed (setup_load sys safe_load w) then
      if decide (k = "SETUP_SUCCESS") then Some "False"
      else os_environ (setup_load sys safe_load w).2 !! k
    else if decide (k = "SETUP_SUCCESS") then Some "True"
    else if decide (k = "LOGGING_COLORED") then Some (colored_flag sys)
    else os_environ (setup_load sys safe_load w).2 !! k.
Proof.
  unfold setup, setup_load, load_failed.
  destruct (steup_temp_logger today now (p_fs w) (p_logging w))
    as [[[lg fs'] m']|] eqn:Htemp; [|done].
  destruct (steup_temp_logger_config _ _ _ _ _ _ _ (get_paths sys).2 Htemp)
    as (-> & -> & Hfiles).
  destruct (get_paths sys) as [base_path exe_path] eqn:Hpaths. simpl in *.
  rewrite (load_config_files_ext _ (regular_files (p_fs w)) _ _ Hfiles).
  destruct (load_config _ _ _ _) as [loaded st] eqn:Hload. simpl.
  destruct (negb loaded && _) eqn:Hfailed.
  - intros [= <-]. simpl. rewrite lookup_insert. repeat case_decide; congruence.
  - unfold enable_virtual_terminal_processing, colored_flag, vt_enabled.
    destruct (bool_decide (os_name sys = "nt") && _) eqn:Hnt; simpl;
      destruct (bool_decide (SetConsoleMode_result sys = 0%Z)) eqn:Hvt;
      simpl; destruct (colorama_installed sys); intros [= <-]; simpl;
      rewrite !lookup_insert; repeat case_decide; congruence.
Qed.

End setup_facts.

Section setup_properties.
Import Os.
Variable sys : sys_info.
Variable safe_load : string → yaml_result.
Implicit Types (today now : string) (w : process).

(** The root logger after [setup]: at level [INFO], and told of the error
    when the load is taken for failed. *)
Lemma setup_root today now w w' :
  setup sys safe_load today now w = Some w' →
  level (root (p_logging w')) = INFO
  ∧ calls (root (p_logging w'))
    = calls (root (p_logging w))
      ++ (if load_failed (setup_load sys safe_load w)
          then [("ERROR", "Config could not be loaded")] else []).
Proof.
  unfold setup, setup_load, load_failed.
  destruct (steup_temp_logger today now (p_fs w) (p_logging w))
    as [[[lg fs'] m']|] eqn:Htemp; [|done].
  destruct (steup_temp_logger_config _ _ _ _ _ _ _
              (get_paths sys).2 Htemp) as (-> & -> & Hfiles).
  destruct (get_paths sys) as [base_path exe_path] eqn:Hpaths. simpl in *.
  rewrite (load_config_files_ext safe_load _ (regular_files (p_fs w)) _ _
             Hfiles).
  destruct (load_config _ _ _ _) as [loaded st] eqn:Hload. simpl.
  destruct (negb loaded && _) eqn:Hfailed.
  - by intros [= <-].
  - destruct (enable_virtual_terminal_processing sys st) as [vt st'].
    intros [= <-]. simpl. by rewrite (right_id_L [] (++)).
Qed.

(** X17: a missing config file is a first run, not a failure: when [setup]
    returns, [SETUP_SUCCESS] and [FIRST_RUN] are ["True"], [BASE_PATH] and
    [EXE_PATH] hold the paths of [get_paths], and [LOGGING_COLORED] holds
    the result of the terminal check. *)
Theorem setup_first_run today now w w' :
  p_fs w !! ((get_paths sys).2 +:+ "/config.yaml") = None →
  setup sys safe_load today now w = Some w' →
  p_environ w' !! "SETUP_SUCCESS" = Some "True"
  ∧ p_environ w' !! "FIRST_RUN" = Some "True"
  ∧ p_environ w' !! "BASE_PATH" = Some (get_paths sys).1
  ∧ p_environ w' !! "EXE_PATH" = Some (get_paths sys).2
  ∧ p_environ w' !! "LOGGING_COLORED" = Some (colored_flag sys).
Proof.
  intros Hmissing Hsetup.
  pose proof (λ k, setup_environ sys safe_load today now w w' k Hsetup) as Henv.
  assert (Hload : setup_load sys safe_load w
                  = (false,
                     logger_warning
                       "Config file does not exist, assuming first run"
                       (setenv "FIRST_RUN" "True"
                          (logger_info "Attempting to load config"
                             {| os_environ :=
                                  <["EXE_PATH" := (get_paths sys).2]>
                                    (<["BASE_PATH" := (get_paths sys).1]>
                                       (p_environ w));
                                logger :=
                                  info "Starting setup"
                                    (deref (NamedLogger "SETUP")
                                       (p_logging w)) |})))).
  { unfold setup_load, load_config, regular_files.
    by rewrite lookup_omap, Hmissing. }
  rewrite Hload in Henv. unfold load_failed in Henv. simpl in Henv.
  rewrite lookup_insert_eq in Henv.
  rewrite (bool_decide_eq_true_2 (Some "True" = Some "True")) in Henv by done.
  simpl in Henv.
  split; [by rewrite Henv|].
  split; [rewrite Henv; simpl; apply lookup_insert_eq|].
  split.
  { rewrite Henv. simpl. rewrite lookup_insert_ne by done.
    rewrite lookup_insert_ne by done. apply lookup_insert_eq. }
  split.
  { rewrite Henv. simpl. rewrite lookup_insert_ne by done.
    apply lookup_insert_eq. }
  by rewrite Henv.
Qed.

(** X18: when the load is taken for failed, [setup] stops there: it sets
    [SETUP_SUCCESS] to ["False"] and reports the error on the root logger;
    the terminal check is not run, so every other variable,
    [LOGGING_COLORED] included, is as [load_config] left it. *)
Theorem setup_failed today now w w' :
  p_fs w !! ((get_paths sys).2 +:+ "/config.yaml") ≠ Some Dir →
  load_failed (setup_load sys safe_load w) = true →
  setup sys safe_load today now w = Some w' →
  p_environ w'
  = <["SETUP_SUCCESS" := "False"]> (os_environ (setup_load sys safe_load w).2)
  ∧ calls (root (p_logging w'))
    = calls (root (p_logging w)) ++ [("ERROR", "Config could not be loaded")].
Proof.
  intros _ Hfailed Hsetup. split.
  - apply map_eq. intros k.
    rewrite (setup_environ sys safe_load today now w w' k Hsetup), Hfailed.
    rewrite lookup_insert. repeat case_decide; congruence.
  - destruct (setup_root today now w w' Hsetup) as [_ Hcalls].
    by rewrite Hfailed in Hcalls.
Qed.

End setup_properties.

Lemma setup_first_run_witness :
  ∃ w',
    setup linux (λ _, Loaded sample) "2024-01-01" "2024-01-01 08:00:00"
      first_boot = Some w'
    ∧ p_environ w' !! "SETUP_SUCCESS" = Some "True"
    ∧ p_environ w' !! "FIRST_RUN" = Some "True".
Proof.
  eexists. split; [vm_compute; reflexivity|].
  edestruct (setup_first_run linux (λ _, Loaded sample) "2024-01-01"
               "2024-01-01 08:00:00" first_boot) as (H1 & H2 & _).
  - reflexivity.
  - vm_compute. reflexivity.
  - split; [exact H1 | exact H2].
Defined.

Lemma setup_failed_witness :
  ∃ w',
    setup linux (λ _, YAMLError "mapping values are not allowed here")
      "2024-01-01" "2024-01-01 08:00:00" with_config = Some w'
    ∧ calls (root (p_logging w'))
      = [("ERROR", "Config could not be loaded")].
Proof.
  eexists. split; [vm_compute; reflexivity|].
  edestruct (setup_failed linux
               (λ _, YAMLError "mapping values are not allowed here")
               "2024-01-01" "2024-01-01 08:00:00" with_config) as (_ & H).
  - vm_compute. discriminate.
  - vm_compute. reflexivity.
  - vm_compute. reflexivity.
  - exact H.
Defined.

(** * Flattening and loading, with the exceptions *)

Section strict_flattening.
Variable upper : string → string.
Variable accepts : string → string → bool.
Implicit Types (data : Strict.tree) (prefix : string)
  (env : gmap string string).

(** A run of [set_env_vars] that does not raise has stored its leaves in
    traversal order. *)
Lemma strict_set_env_vars_store data :
  ∀ prefix env env',
    Strict.set_env_vars upper accepts data prefix env = (env', None) →
    env' = store_all (Strict.leaves upper data prefix) env.
Proof.
  induction data as [v|items IH|items IH] using Strict.tree_ind;
    intros prefix env env'.
  - simpl. destruct (accepts prefix (str v)); [|done]. by intros [= <-].
  - simpl. generalize 0%nat. revert env.
    induction IH as [|value rest Hvalue _ IHrest]; intros env index; simpl.
    + by intros [= <-].
    + destruct (Strict.set_env_vars upper accepts value _ env)
        as [env1 [e|]] eqn:Hrun; [done|].
      intros Hrest. rewrite store_all_app, <-(Hvalue _ _ _ Hrun).
      by apply IHrest in Hrest.
  - simpl. revert env.
    induction IH as [|[[k|] value] rest Hvalue _ IHrest]; intros env; simpl.
    + by intros [= <-].
    + destruct (Strict.set_env_vars upper accepts value _ env)
        as [env1 [e|]] eqn:Hrun; [done|].
      intros Hrest. simpl in Hvalue.
      rewrite store_all_app, <-(Hvalue _ _ _ Hrun).
      by apply IHrest in Hrest.
    + done.
Qed.

End strict_flattening.

(** C1, amended: for every tree with a mapping or a sequence at the root,
    after [set_env_vars] has flattened it, that is, has returned without
    raising, looking up a scalar leaf by its derived name returns the
    stringified value of that leaf whenever no later leaf, in traversal
    order, derives the same name.  [upper] and what [os.environ] accepts are
    arbitrary. *)
Theorem strict_lookup_leaf upper accepts data env env' before k v after :
  Strict.container data →
  Strict.set_env_vars upper accepts data "" env = (env', None) →
  Strict.leaves upper data "" = before ++ (k, v) :: after →
  k ∉ after.*1 →
  env' !! k = Some v.
Proof.
  intros _ Hrun Hleaves Hlast.
  rewrite (strict_set_env_vars_store upper accepts data "" env env' Hrun).
  rewrite Hleaves. by apply store_all_lookup_last.
Qed.

Lemma strict_lookup_leaf_witness :
  (Strict.set_env_vars upper Strict.posix_accepts strict_sample "" ∅).1
  !! "LOGGING_FILTER_0" = Some "websockets.server".
Proof.
  apply (strict_lookup_leaf upper Strict.posix_accepts strict_sample ∅ _
           [("LOGGING_LEVEL", "DEBUG")] "LOGGING_FILTER_0"
           "websockets.server" [("PORT", "8080")]).
  - exact I.
  - vm_compute. reflexivity.
  - vm_compute. reflexivity.
  - simpl. intros Hin.
    repeat (apply elem_of_cons in Hin as [Hin|Hin]; [discriminate|]).
    by apply elem_of_nil in Hin.
Defined.

(** A name that [os.environ] refuses ends the run: in
    [{"a": 1, "": 2, "b": 3}] the leaf [1] is stored, the empty name raises,
    and [B] is never set.  A key that is no string raises as well. *)
Example set_env_vars_empty_key :
  Strict.set_env_vars upper Strict.posix_accepts empty_key "" ∅
  = ({[ "A" := "1" ]}, Some Strict.ValueError)
  ∧ Strict.set_env_vars upper Strict.posix_accepts bool_key "" ∅
    = ({[ "PORT" := "8080" ]}, Some Strict.AttributeError)
  ∧ Strict.set_env_vars upper Strict.posix_accepts
      (Strict.Scalar PyNone) "" ∅
    = (∅, Some Strict.ValueError).
Proof. repeat split. Qed.

Section strict_loading.
Variable upper : string → string.
Variable accepts : string → string → bool.
Variable safe_load : string → Strict.yaml_result.
Variable fs : gmap string Os.node.
Implicit Types (st : state) (path stream lvl : string) (data : Strict.tree).

(** [load_config] after a parse and a flattening that did not raise. *)
Lemma strict_load_config_flattened path stream data st env' :
  fs !! path = Some (Os.File stream) →
  safe_load stream = Strict.Loaded data →
  Strict.set_env_vars upper accepts data ""
    (<["FIRST_RUN" := "False"]> (os_environ st)) = (env', None) →
  let lg := info "Config loaded, setting environment variables"
              (info "Attempting to load config" (logger st)) in
  Strict.load_config upper accepts safe_load fs path st
  = match env' !! "LOGGING_LEVEL" with
    | Some lvl =>
        if truthy lvl then
          match dict_get _nameToLevel lvl with
          | Some n =>
              (Strict.Returned true,
               {| os_environ := env';
                  logger := {| level := n; calls := calls lg |} |})
          | None =>
              (Strict.Returned false,
               {| os_environ := env';
                  logger := error ("Invalid logging level: " +:+ lvl) lg |})
          end
        else (Strict.Returned true, {| os_environ := env'; logger := lg |})
    | None => (Strict.Returned true, {| os_environ := env'; logger := lg |})
    end.
Proof.
  intros Hfile Hparse Hrun. unfold Strict.load_config.
  rewrite Hfile, Hparse. simpl. simpl in Hrun. rewrite Hrun.
  destruct (env' !! "LOGGING_LEVEL") as [lvl|]; [|done].
  destruct (truthy lvl); [|done].
  unfold setLevel, _checkLevel.
  by destruct (dict_get _nameToLevel lvl).
Qed.

(** When [load_config] returns [True], the file was a regular one, it
    parsed, the flattening did not raise, and [LOGGING_LEVEL] is missing,
    empty or known. *)
Lemma strict_load_config_true path st :
  (Strict.load_config upper accepts safe_load fs path st).1
  = Strict.Returned true →
  ∃ stream data env',
    fs !! path = Some (Os.File stream)
    ∧ safe_load stream = Strict.Loaded data
    ∧ Strict.set_env_vars upper accepts data ""
        (<["FIRST_RUN" := "False"]> (os_environ st)) = (env', None)
    ∧ os_environ (Strict.load_config upper accepts safe_load fs path st).2
      = env'
    ∧ match env' !! "LOGGING_LEVEL" with
      | Some lvl => lvl = "" ∨ is_Some (dict_get _nameToLevel lvl)
      | None => True
      end.
Proof.
  destruct (fs !! path) as [[|stream]|] eqn:Hfile.
  1,3: unfold Strict.load_config; by rewrite Hfile.
  destruct (safe_load stream) as [exc|data] eqn:Hparse.
  { unfold Strict.load_config. by rewrite Hfile, Hparse. }
  destruct (Strict.set_env_vars upper accepts data ""
              (<["FIRST_RUN" := "False"]> (os_environ st)))
    as [env' [e|]] eqn:Hrun.
  { unfold Strict.load_config. rewrite Hfile, Hparse. simpl.
    simpl in Hrun. by rewrite Hrun. }
  rewrite (strict_load_config_flattened path stream data st env'
             Hfile Hparse Hrun). cbv zeta.
  intros Hret. exists stream, data, env'.
  split; [done|]. split; [done|]. split; [done|].
  destruct (env' !! "LOGGING_LEVEL") as [lvl|]; [|done].
  destruct lvl as [|c lvl]; [by split; [|left]|].
  simpl in *.
  destruct (dict_get _nameToLevel (String c lvl)); [|done].
  split; [done|]. right. by eexists.
Qed.

End strict_loading.

(** C5, amended: for every successfully parsed config that [set_env_vars]
    flattens without raising and that leaves a non-empty [LOGGING_LEVEL] in
    the environment, [load_config] hands that value to [logger.setLevel]
    right after the flattening: a known level name becomes the level of the
    logger and the load succeeds; an unknown one is reported through
    [logger.error], the level stays as it was, and [False] is returned. *)
Theorem strict_load_config_logging_level
    upper accepts safe_load fs path stream data st env' lvl :
  fs !! path = Some (Os.File stream) →
  safe_load stream = Strict.Loaded data →
  Strict.set_env_vars upper accepts data ""
    (<["FIRST_RUN" := "False"]> (os_environ st)) = (env', None) →
  env' !! "LOGGING_LEVEL" = Some lvl →
  lvl ≠ "" →
  let r := Strict.load_config upper accepts safe_load fs path st in
  os_environ r.2 = env'
  ∧ match dict_get _nameToLevel lvl with
    | Some n =>
        r.1 = Strict.Returned true
        ∧ level (logger r.2) = n
        ∧ calls (logger r.2)
          = calls (logger st)
            ++ [("INFO", "Attempting to load config");
                ("INFO", "Config loaded, setting environment variables")]
    | None =>
        r.1 = Strict.Returned false
        ∧ level (logger r.2) = level (logger st)
        ∧ calls (logger r.2)
          = calls (logger st)
            ++ [("INFO", "Attempting to load config");
                ("INFO", "Config loaded, setting environment variables");
                ("ERROR", "Invalid logging level: " +:+ lvl)]
    end.
Proof.
  intros Hfile Hparse Hrun Hlvl Hne r. subst r.
  rewrite (strict_load_config_flattened upper accepts safe_load fs path
             stream data st env' Hfile Hparse Hrun).
  cbv zeta. rewrite Hlvl, (truthy_nonempty lvl Hne).
  destruct (dict_get _nameToLevel lvl) as [n|]; simpl.
  - split; [done|]. split; [done|]. split; [done|].
    by rewrite <-(assoc_L (++)).
  - split; [done|]. split; [done|]. split; [done|].
    by rewrite <-!(assoc_L (++)).
Qed.

Lemma strict_load_config_logging_level_witness :
  level
    (logger
       (Strict.load_config upper Strict.posix_accepts
          (λ _, Strict.Loaded strict_sample) config_fs "config.yaml"
          fresh).2)
  = DEBUG.
Proof.
  pose proof (strict_load_config_logging_level upper Strict.posix_accepts
                (λ _, Strict.Loaded strict_sample) config_fs "config.yaml"
                "logging: ..." strict_sample fresh
                (Strict.set_env_vars upper Strict.posix_accepts strict_sample
                   "" (<["FIRST_RUN" := "False"]> (os_environ fresh))).1
                "DEBUG") as H.
  cbv zeta in H.
  destruct H as (_ & H).
  - reflexivity.
  - reflexivity.
  - vm_compute. reflexivity.
  - vm_compute. reflexivity.
  - discriminate.
  - change (dict_get _nameToLevel "DEBUG") with (Some DEBUG) in H.
    exact (proj1 (proj2 H)).
Defined.

(** An empty config file parses to [None]; [set_env_vars] then raises at
    [os.environ[""]], outside every [try], and so does [load_config]: no
    level is applied and nothing is returned, also when [LOGGING_LEVEL] was
    set before. *)
Example load_config_empty_file :
  Strict.load_config upper Strict.posix_accepts
    (λ _, Strict.Loaded (Strict.Scalar PyNone)) config_fs "config.yaml"
    {| os_environ := {[ "LOGGING_LEVEL" := "DEBUG" ]};
       logger := {| level := NOTSET; calls := [] |} |}
  = (Strict.Raised Strict.ValueError,
     {| os_environ := {[ "FIRST_RUN" := "False"; "LOGGING_LEVEL" := "DEBUG" ]};
        logger :=
          {| level := NOTSET;
             calls :=
               [("INFO", "Attempting to load config");
                ("INFO", "Config loaded, setting environment variables")] |} |}).
Proof. vm_compute. reflexivity. Qed.

(** X4: [load_config] returns [True] exactly when the path is a regular
    file that parses, the flattening does not raise, and the
    [LOGGING_LEVEL] in the environment after it is missing, empty or a level
    name that [logging] knows. *)
Theorem strict_load_config_true_iff upper accepts safe_load fs path st :
  (Strict.load_config upper accepts safe_load fs path st).1
  = Strict.Returned true
  ↔ ∃ stream data env',
      fs !! path = Some (Os.File stream)
      ∧ safe_load stream = Strict.Loaded data
      ∧ Strict.set_env_vars upper accepts data ""
          (<["FIRST_RUN" := "False"]> (os_environ st)) = (env', None)
      ∧ match env' !! "LOGGING_LEVEL" with
        | Some lvl => lvl = "" ∨ is_Some (dict_get _nameToLevel lvl)
        | None => True
        end.
Proof.
  split.
  - intros Hret.
    destruct (strict_load_config_true upper accepts safe_load fs path st Hret)
      as (stream & data & env' & Hfile & Hparse & Hrun & _ & Hlvl).
    by exists stream, data, env'.
  - intros (stream & data & env' & Hfile & Hparse & Hrun & Hlvl).
    rewrite (strict_load_config_flattened upper accepts safe_load fs path
               stream data st env' Hfile Hparse Hrun). cbv zeta.
    destruct (env' !! "LOGGING_LEVEL") as [lvl|]; [|done].
    destruct Hlvl as [->|[n Hn]]; [done|].
    rewrite Hn. by destruct (truthy lvl).
Qed.

Lemma strict_load_config_true_iff_witness :
  (Strict.load_config upper Strict.posix_accepts
     (λ _, Strict.Loaded strict_sample) config_fs "config.yaml" fresh).1
  = Strict.Returned true.
Proof.
  apply (proj2 (strict_load_config_true_iff upper Strict.posix_accepts
                  (λ _, Strict.Loaded strict_sample) config_fs "config.yaml"
                  fresh)).
  eexists "logging: ...", strict_sample, _.
  split; [reflexivity|]. split; [reflexivity|].
  split; [vm_compute; reflexivity|].
  vm_compute. right. by eexists.
Defined.

(** X9: whenever [load_config] returns [True], the level that
    [src/python/logger_config.py] takes from the environment it leaves is a
    level name that [logging] knows, so that the level, the filter and the
    formatter of the console handler and of the file handler are
    resolved. *)
Theorem strict_load_config_true_handlers
    upper accepts safe_load fs path st LOG_FILE_PATH h :
  (Strict.load_config upper accepts safe_load fs path st).1
  = Strict.Returned true →
  h ∈ ["default"; "file"] →
  is_Some (dict_get _nameToLevel
             (LoggerConfig.log_level
                (os_environ
                   (Strict.load_config upper accepts safe_load fs path st).2)))
  ∧ is_Some
      (configure_handler
         (LoggerConfig.LOGGING_CONFIG
            (os_environ
               (Strict.load_config upper accepts safe_load fs path st).2)
            LOG_FILE_PATH) h).
Proof.
  intros Hret Hh.
  destruct (strict_load_config_true upper accepts safe_load fs path st Hret)
    as (stream & data & env' & _ & _ & _ & -> & Hlvl).
  assert (Hknown : is_Some (dict_get _nameToLevel
                              (LoggerConfig.log_level env'))).
  { unfold LoggerConfig.log_level.
    destruct (env' !! "LOGGING_LEVEL") as [lvl|]; [|by eexists].
    destruct Hlvl as [->|Hlvl]; [by eexists|].
    destruct (truthy lvl); [done|by eexists]. }
  split; [done|]. destruct Hknown as [n Hn].
  apply elem_of_cons in Hh as [->|Hh].
  - rewrite configure_handler_default, Hn. by eexists.
  - apply list_elem_of_singleton in Hh as ->.
    rewrite configure_handler_file, Hn. by eexists.
Qed.

Lemma strict_load_config_true_handlers_witness :
  is_Some
    (dict_get _nameToLevel
       (LoggerConfig.log_level
          (os_environ
             (Strict.load_config upper Strict.posix_accepts
                (λ _, Strict.Loaded strict_sample) config_fs "config.yaml"
                fresh).2))).
Proof.
  apply (strict_load_config_true_handlers upper Strict.posix_accepts
           (λ _, Strict.Loaded strict_sample) config_fs "config.yaml" fresh
           "logs/2024-01-01.log" "file").
  - vm_compute. reflexivity.
  - right. left.
Defined.
